(** * N8N chatbot front end: webhook transport, conversation log, upload queue

    A shallow embedding of the TypeScript sources

    - [src/services/n8nService.ts]   ([sendChatMessage], [uploadFilesToWebhook])
    - [src/App.tsx]                  (configuration loading, [getN8nErrorAdvice],
                                      [handleSendMessage])
    - [src/components/FileUploader.tsx] ([handleRemove] and the remove control)
    - [SettingsModal.tsx], [types.ts], [src/constants.ts]

    together with the properties of the transport layer and of the two state
    machines that it drives.

    The browser is not part of the repository.  What the code asks of it
    (numbers, [JSON.parse], [JSON.stringify], the local time zone) is collected
    in the classes [JSNumber] and [Host]; the network, the clock and the
    console are fields of an explicit [World] that every asynchronous function
    threads through.  All statements are proved for an arbitrary host. *)

From Stdlib Require Import ZArith Ascii String.
From stdpp Require Import base option list strings pretty gmap.

Local Open Scope string_scope.
Local Open Scope list_scope.

(** ** JavaScript values *)

(** Numbers are IEEE doubles in the browser.  The program never computes with
    the numbers it finds in a JSON document: it tests them for truthiness and
    converts them to strings, so these two operations are all that is asked
    of the host. *)
Class JSNumber := {
  number : Type;
  (** [ToBoolean]: false exactly for [+0], [-0] and [NaN]. *)
  number_truthy : number → bool;
  (** [Number::toString] in radix 10. *)
  number_toString : number → string;
}.

Section Values.
Context `{JSNumber}.

(** The values that reach this program: primitives, and the arrays and plain
    objects that [JSON.parse] or an object literal builds.  An object is the
    list of its own properties in enumeration order. *)
#[warnings="-register-all"]
Inductive value :=
  | VUndefined
  | VNull
  | VBool (b : bool)
  | VNum (n : number)
  | VStr (s : string)
  | VArr (elems : list value)
  | VObj (props : list (string * value)).

(** What a [throw] carries.  Every exception raised in these sources is an
    [Error] instance ([new Error(..)], or the [TypeError] and [SyntaxError] of
    the runtime); [NotAnError] stands for whatever else a rejected promise
    might hold, the case [error instanceof Error] tests for. *)
Inductive thrown :=
  | JsError (message : string)
  | NotAnError (v : value).

Inductive result (A : Type) :=
  | Ok (a : A)
  | Throw (e : thrown).
Global Arguments Ok {A} a.
Global Arguments Throw {A} e.

Definition rbind {A B} (r : result A) (k : A → result B) : result B :=
  match r with
  | Ok a => k a
  | Throw e => Throw e
  end.

(** [ToBoolean] *)
Definition ToBoolean (v : value) : bool :=
  match v with
  | VUndefined | VNull => false
  | VBool b => b
  | VNum n => number_truthy n
  | VStr s => negb (String.eqb s "")
  | VArr _ | VObj _ => true
  end.

(** [typeof v === 'string'] *)
Definition is_string (v : value) : bool :=
  match v with
  | VStr _ => true
  | _ => false
  end.

(** First binding of [k] in a property list. *)
Fixpoint own_property (k : string) (props : list (string * value)) : option value :=
  match props with
  | [] => None
  | (k', v) :: rest => if String.eqb k k' then Some v else own_property k rest
  end.

(** The two [TypeError]s this program can provoke.  Their message texts
    differ between engines, so the host supplies them. *)
Inductive type_error :=
  | ReadOfNullish (key : string)   (* [null.key], [undefined.key] *)
  | NoPrimitive.                   (* an object without a callable [toString] *)

End Values.

(** ** The host *)

Class Host `{JSNumber} := {
  (** [JSON.parse]; on a malformed text it throws its [SyntaxError]. *)
  JSON_parse : string → result value;
  (** [JSON.stringify], applied here only to parsed documents and to object
      and array literals, for which it returns a string and cannot throw. *)
  JSON_stringify : value → string;
  (** Offset of local time from UTC, in milliseconds, at a UTC time value. *)
  LocalTZA : Z → Z;
  type_error_message : type_error → string;
}.

Section Semantics.
Context `{Host}.

Definition TypeError (e : type_error) : thrown := JsError (type_error_message e).

(** [v.k] for the property names this program reads ([output], [text],
    [message], [errorMessage], [ingestionUrl], [chatUrl]).  None of them is
    defined on a builtin prototype, so only an own property of a plain object
    can answer; reading from [null] or [undefined] throws. *)
Definition get (v : value) (k : string) : result value :=
  match v with
  | VUndefined | VNull => Throw (TypeError (ReadOfNullish k))
  | VObj props => Ok (default VUndefined (own_property k props))
  | _ => Ok VUndefined
  end.

(** [a || b]: [b] is evaluated only when [a] is falsy. *)
Definition or_else (a b : result value) : result value :=
  rbind a (λ x, if ToBoolean x then Ok x else b).

(** [ToString].  An array joins the conversions of its elements with commas,
    [null] and [undefined] elements giving the empty string.  A plain object
    goes through [OrdinaryToPrimitive]: an own property [toString] hides
    [Object.prototype.toString] and, being data, is not callable, after which
    [valueOf] cannot produce a primitive either. *)
Fixpoint ToString (v : value) : result string :=
  match v with
  | VUndefined => Ok "undefined"
  | VNull => Ok "null"
  | VBool b => Ok (if b then "true" else "false")
  | VNum n => Ok (number_toString n)
  | VStr s => Ok s
  | VArr elems =>
      (fix join (l : list value) : result string :=
         match l with
         | [] => Ok ""
         | x :: rest =>
             rbind (match x with
                    | VUndefined | VNull => Ok ""
                    | _ => ToString x
                    end)
               (λ s, match rest with
                     | [] => Ok s
                     | _ => rbind (join rest) (λ r, Ok (s +:+ "," +:+ r))
                     end)
         end) elems
  | VObj props =>
      match own_property "toString" props with
      | Some _ => Throw (TypeError NoPrimitive)
      | None => Ok "[object Object]"
      end
  end.

(** [new Error(message)] *)
Definition new_Error (message : value) : result thrown :=
  match message with
  | VUndefined => Ok (JsError "")
  | _ => rbind (ToString message) (λ msg, Ok (JsError msg))
  end.

End Semantics.

(** ** Strings *)

Definition nl : string := String (ascii_of_nat 10) "".

(** [hay.includes(needle)] *)
Fixpoint includes (needle hay : string) : bool :=
  String.prefix needle hay ||
  match hay with
  | EmptyString => false
  | String _ rest => includes needle rest
  end.

(** ** Dates *)

Module Date.

Definition msPerDay : Z := 86400000.

(** [Day(LocalTime(t))] , the local calendar day a time value falls on,
    counted from 1 January 1970. *)
Definition localDay `{Host} (t : Z) : Z := (t + LocalTZA t) `div` msPerDay.

Definition weekDayName (d : Z) : string :=
  match (d + 4) `mod` 7 with
  | 0 => "Sun" | 1 => "Mon" | 2 => "Tue" | 3 => "Wed"
  | 4 => "Thu" | 5 => "Fri" | _ => "Sat"
  end%Z.

Definition monthName (m : Z) : string :=
  match m with
  | 1 => "Jan" | 2 => "Feb" | 3 => "Mar" | 4 => "Apr" | 5 => "May"
  | 6 => "Jun" | 7 => "Jul" | 8 => "Aug" | 9 => "Sep" | 10 => "Oct"
  | 11 => "Nov" | _ => "Dec"
  end%Z.

(** Year, month (1..12) and day of the month of a day number in the
    proleptic Gregorian calendar, by 400-year eras starting on 1 March. *)
Definition civil (d : Z) : Z * Z * Z :=
  (let z := d + 719468 in
   let era := z `div` 146097 in
   let doe := z - era * 146097 in
   let yoe := (doe - doe `div` 1460 + doe `div` 36524 - doe `div` 146096) `div` 365 in
   let doy := doe - (365 * yoe + yoe `div` 4 - yoe `div` 100) in
   let mp := (5 * doy + 2) `div` 153 in
   let day := doy - (153 * mp + 2) `div` 5 + 1 in
   let m := if mp <? 10 then mp + 3 else mp - 9 in
   let y := yoe + era * 400 + (if m <=? 2 then 1 else 0) in
   (y, m, day))%Z.

Definition pad (width : nat) (s : string) : string :=
  String.concat "" (replicate (width - String.length s) "0") +:+ s.

(** [DateString]: weekday, month, day of the month on two digits, year on
    at least four with its sign when negative. *)
Definition dateString (d : Z) : string :=
  let '(y, m, day) := civil d in
  weekDayName d +:+ " " +:+ monthName m +:+ " " +:+ pad 2 (pretty (Z.abs day)) +:+ " "
  +:+ (if (y <? 0)%Z then "-" else "") +:+ pad 4 (pretty (Z.abs y)).

(** [new Date(t).toDateString()] *)
Definition toDateString `{Host} (t : Z) : string := dateString (localDay t).

End Date.

(** ** [types.ts] *)

(** The browser's [File]: the three attributes the program reads, and the
    bytes the binary part carries. *)
Module File.
Record t `{JSNumber} := mk {
  name : string;
  type : string;
  size : number;
  bytes : list Byte.byte;
}.
End File.

Inductive MessageRole := USER | ASSISTANT | SYSTEM.

Definition MessageRole_string (r : MessageRole) : string :=
  match r with
  | USER => "user"
  | ASSISTANT => "assistant"
  | SYSTEM => "system"
  end.

Module ChatAttachment.
Record t `{JSNumber} := mk {
  name : string;
  type : string;
  size : number;
}.
End ChatAttachment.

(** [content] is declared a string, but [sendChatMessage] hands on whatever
    value the reply document held, so the field is a [value]. [isError] and
    [attachments] are optional. *)
Module ChatMessage.
Record t `{JSNumber} := mk {
  id : string;
  role : MessageRole;
  content : value;
  timestamp : Z;
  isError : option bool;
  attachments : option (list ChatAttachment.t);
}.
End ChatMessage.

(** The two URLs are declared strings; a stored document can put any truthy
    value in their place. *)
Module WebhookConfig.
Record t `{JSNumber} := mk {
  ingestionUrl : value;
  chatUrl : value;
}.
End WebhookConfig.

Module FileUploadItem.
Inductive status_t := pending | uploading | success | error.
Inductive type_t := image | video | audio | document | other.
Record t `{JSNumber} := mk {
  id : string;
  file : File.t;
  previewUrl : option string;
  status : status_t;
  type : type_t;
}.
End FileUploadItem.

(** ** [constants.ts] *)

Definition DEFAULT_CONFIG `{JSNumber} : WebhookConfig.t :=
  {| WebhookConfig.ingestionUrl := VStr "https://n8n.edutechnd.org/webhook/n8nchatbot";
     WebhookConfig.chatUrl := VStr "https://n8n.edutechnd.org/webhook/n8nchatbot" |}.

Definition LOCAL_STORAGE_CONFIG_KEY : string := "n8n_chatbot_config_v2".

(** ** [FormData] *)

(** A multipart body is the ordered list of its parts; [append] never
    replaces a part of the same name. *)
Module FormData.
Inductive entry `{JSNumber} :=
  | Text (s : string)
  | Binary (f : File.t).

Abbreviation t := (list (string * entry)).

Definition append `{JSNumber} (name : string) (v : entry) (fd : t) : t :=
  fd ++ [(name, v)].

(** [formData.getAll(name)] *)
Definition getAll `{JSNumber} (name : string) (fd : t) : list entry :=
  (filter (λ p, p.1 = name) fd).*2.
End FormData.

(** ** The world outside: clock, network, console, storage *)

Section World.
Context `{Host}.

Record Response := {
  status : nat;
  statusText : string;
  (** what [response.text()] settles to *)
  body : result string;
}.

(** [response.ok] *)
Definition ok (r : Response) : bool := (200 <=? status r)%nat && (status r <=? 299)%nat.

Record Request := {
  req_url : value;
  req_method : string;
  req_body : FormData.t;
}.

Inductive fetch_outcome :=
  | Rejected (e : thrown)
  | Fulfilled (r : Response).

Record World := {
  (** the successive readings of the system clock, in milliseconds *)
  clock : nat → Z;
  ticks : nat;
  (** how the network answers, given every request sent so far, the last
      one being the request to answer *)
  network : list Request → fetch_outcome;
  sent : list Request;
  (** the calls of [console.error] *)
  console : list (string * thrown);
  localStorage : gmap string string;
  (** the arguments of [URL.revokeObjectURL], in call order *)
  revoked : list string;
}.

(** Asynchronous functions: a state transformer on the world whose outcome
    is a value or an exception (a rejected promise). *)
Definition io (A : Type) : Type := World → result A * World.

Definition ret {A} (a : A) : io A := λ w, (Ok a, w).
Definition throw {A} (e : thrown) : io A := λ w, (Throw e, w).
Definition bind {A B} (m : io A) (k : A → io B) : io B :=
  λ w, match m w with
       | (Ok a, w') => k a w'
       | (Throw e, w') => (Throw e, w')
       end.
Definition lift {A} (r : result A) : io A := λ w, (r, w).

(** [try { m } catch (e) { handler e }] *)
Definition try_catch {A} (m : io A) (handler : thrown → io A) : io A :=
  λ w, match m w with
       | (Ok a, w') => (Ok a, w')
       | (Throw e, w') => handler e w'
       end.

(** The three ways the program changes the world. *)
Definition tick (w : World) : World :=
  {| clock := clock w; ticks := S (ticks w); network := network w;
     sent := sent w; console := console w;
     localStorage := localStorage w; revoked := revoked w |}.

Definition post (req : Request) (w : World) : World :=
  {| clock := clock w; ticks := ticks w; network := network w;
     sent := sent w ++ [req]; console := console w;
     localStorage := localStorage w; revoked := revoked w |}.

Definition logError (label : string) (e : thrown) (w : World) : World :=
  {| clock := clock w; ticks := ticks w; network := network w;
     sent := sent w; console := console w ++ [(label, e)];
     localStorage := localStorage w; revoked := revoked w |}.

(** [URL.revokeObjectURL(url)] *)
Definition revokeObjectURL (url : string) (w : World) : World :=
  {| clock := clock w; ticks := ticks w; network := network w;
     sent := sent w; console := console w;
     localStorage := localStorage w; revoked := revoked w ++ [url] |}.

(** The reading the clock gives next. *)
Definition now (w : World) : Z := clock w (ticks w).

(** [Date.now()], and the time value of [new Date()] *)
Definition Date_now : io Z := λ w, (Ok (now w), tick w).

(** [fetch(url, { method, body })] *)
Definition fetch (url : value) (method : string) (body : FormData.t) : io Response :=
  λ w, let req := {| req_url := url; req_method := method; req_body := body |} in
       match network w (sent w ++ [req]) with
       | Rejected e => (Throw e, post req w)
       | Fulfilled r => (Ok r, post req w)
       end.

(** [response.text()] *)
Definition text (r : Response) : io string := lift (body r).

(** [console.error(label, e)] *)
Definition console_error (label : string) (e : thrown) : io unit :=
  λ w, (Ok tt, logError label e w).

End World.

Declare Scope io_scope.
Delimit Scope io_scope with io.
Notation "'let*' x ':=' m 'in' k" := (bind m (λ x, k))
  (at level 10, x binder, m at level 100, k at level 200) : io_scope.
Notation "m ';;;' k" := (bind m (λ _, k))
  (at level 100, k at level 200, right associativity) : io_scope.
Notation "'let?' x ':=' r 'in' k" := (rbind r (λ x, k))
  (at level 10, x binder, r at level 100, k at level 200).

(** ** [services/n8nService.ts] *)

Section Service.
Context `{Host}.
Local Open Scope io_scope.

(** [files.forEach((file, index) => ..)] over an accumulated state *)
Fixpoint forEach {A St : Type} (f : A → nat → St → St) (l : list A) (index : nat) (s : St) : St :=
  match l with
  | [] => s
  | x :: rest => forEach f rest (S index) (f x index s)
  end.

(** [`file_${index}`] *)
Definition fileKey (index : nat) : string := "file_" +:+ pretty index.

(** The object literal [{ name: file.name, type: file.type, size: file.size,
    key: `file_${index}` }] *)
Definition metadata (file : File.t) (index : nat) : value :=
  VObj [("name", VStr (File.name file));
        ("type", VStr (File.type file));
        ("size", VNum (File.size file));
        ("key", VStr (fileKey index))].

(** The body of the [forEach] callback, the same in both functions: the
    binary part, then the metadata part. *)
Definition appendFile (file : File.t) (index : nat) (formData : FormData.t) : FormData.t :=
  let formData := FormData.append (fileKey index) (FormData.Binary file) formData in
  FormData.append "file_metadata" (FormData.Text (JSON_stringify (metadata file index))) formData.

(** [history.map(h => ({ role: h.role, content: h.content }))] *)
Definition historyEntry (h : ChatMessage.t) : value :=
  VObj [("role", VStr (MessageRole_string (ChatMessage.role h)));
        ("content", ChatMessage.content h)].

(** Lines 17-47 of [sendChatMessage]. *)
Definition chatFormData (sessionId message : string) (history : list ChatMessage.t)
    (files : list File.t) : FormData.t :=
  let formData : FormData.t := [] in
  let formData := FormData.append "message" (FormData.Text message) formData in
  let formData := FormData.append "chatInput" (FormData.Text message) formData in
  let formData := FormData.append "sessionId" (FormData.Text sessionId) formData in
  let formData := FormData.append "history"
    (FormData.Text (JSON_stringify (VArr (historyEntry <$> history)))) formData in
  let formData := forEach appendFile files 0 formData in
  FormData.append "file_count" (FormData.Text (pretty (length files))) formData.

(** Lines 99-120 of [uploadFilesToWebhook]; [textContext || ""]. *)
Definition uploadFormData (sessionId : string) (files : list File.t)
    (textContext : option string) : FormData.t :=
  let formData : FormData.t := [] in
  let formData := FormData.append "message" (FormData.Text (default "" textContext)) formData in
  let formData := FormData.append "chatInput" (FormData.Text (default "" textContext)) formData in
  let formData := FormData.append "sessionId" (FormData.Text sessionId) formData in
  let formData := forEach appendFile files 0 formData in
  FormData.append "file_count" (FormData.Text (pretty (length files))) formData.

(** [errorJson.errorMessage || errorJson.message || JSON.stringify(errorJson)] *)
Definition errorFields (errorJson : value) : result value :=
  or_else (get errorJson "errorMessage")
    (or_else (get errorJson "message")
       (Ok (VStr (JSON_stringify errorJson)))).

(** The non-success branch, written out twice in the source (lines 56-64
    and 129-136): [errorDesc] starts as the status text and is overwritten
    only if reading, parsing and selecting all went through. *)
Definition errorDesc (response : Response) : io value :=
  try_catch
    (let* errorText := text response in
     lift (let? errorJson := JSON_parse errorText in errorFields errorJson))
    (λ _, ret (VStr (statusText response))).

(** [throw new Error(errorDesc)] *)
Definition throwError {A} (errorDesc : value) : io A :=
  match new_Error errorDesc with
  | Ok e => throw e
  | Throw e => throw e
  end.

(** [data.output || data.text || data.message ||
     (typeof data === 'string' ? data : JSON.stringify(data))] *)
Definition replyFields (data : value) : result value :=
  or_else (get data "output")
    (or_else (get data "text")
       (or_else (get data "message")
          (Ok (if is_string data then data else VStr (JSON_stringify data))))).

(** Lines 69-77: the reply of a successful response. *)
Definition reply (response : Response) : io value :=
  let* responseText := text response in
  try_catch
    (lift (let? data := JSON_parse responseText in replyFields data))
    (λ _, ret (VStr responseText)).

Definition sendChatMessage (url : value) (message : string)
    (history : list ChatMessage.t) (files : list File.t) : io value :=
  if negb (ToBoolean url) then throw (JsError "Chat Webhook URL is not configured.")
  else
    try_catch
      (let* now := Date_now in
       let sessionId := "session-" +:+ Date.toDateString now in
       let formData := chatFormData sessionId message history files in
       let* response := fetch url "POST" formData in
       if negb (ok response) then
         let* errorDesc := errorDesc response in
         throwError errorDesc
       else reply response)
      (λ error,
         console_error "Failed to send message to N8N:" error ;;;
         throw error).

Definition uploadFilesToWebhook (url : value) (files : list File.t)
    (textContext : option string) : io unit :=
  if negb (ToBoolean url) then throw (JsError "Ingestion Webhook URL is not configured.")
  else
    let* now := Date_now in
    let sessionId := "ingestion-" +:+ Date.toDateString now in
    try_catch
      (let formData := uploadFormData sessionId files textContext in
       let* response := fetch url "POST" formData in
       if negb (ok response) then
         let* errorDesc := errorDesc response in
         throwError errorDesc
       else ret tt)
      (λ error,
         console_error "Failed to upload files to N8N:" error ;;;
         throw error).

End Service.

(** ** [App.tsx] *)

Section App.
Context `{Host}.
Local Open Scope io_scope.

(** The part of the component state that the configuration effect and the
    chat handler read and write. *)
Record AppState := {
  config : WebhookConfig.t;
  messages : list ChatMessage.t;
  isChatLoading : bool;
}.

Definition setConfig (c : WebhookConfig.t) (st : AppState) : AppState :=
  {| config := c; messages := messages st; isChatLoading := isChatLoading st |}.

Definition setMessages (f : list ChatMessage.t → list ChatMessage.t)
    (st : AppState) : AppState :=
  {| config := config st; messages := f (messages st);
     isChatLoading := isChatLoading st |}.

Definition setIsChatLoading (b : bool) (st : AppState) : AppState :=
  {| config := config st; messages := messages st; isChatLoading := b |}.

(** [useState<WebhookConfig>(DEFAULT_CONFIG)], [useState<ChatMessage[]>([])]
    and [useState(false)] *)
Definition initialState : AppState :=
  {| config := DEFAULT_CONFIG; messages := []; isChatLoading := false |}.

(** The object built from a parsed document, in both loaders:
    [{ ingestionUrl: parsed.ingestionUrl || DEFAULT_CONFIG.ingestionUrl,
       chatUrl: parsed.chatUrl || DEFAULT_CONFIG.chatUrl }] *)
Definition configOfParsed (parsed : value) : result WebhookConfig.t :=
  let? ingestionUrl := or_else (get parsed "ingestionUrl")
                         (Ok (WebhookConfig.ingestionUrl DEFAULT_CONFIG)) in
  let? chatUrl := or_else (get parsed "chatUrl")
                    (Ok (WebhookConfig.chatUrl DEFAULT_CONFIG)) in
  Ok {| WebhookConfig.ingestionUrl := ingestionUrl; WebhookConfig.chatUrl := chatUrl |}.

(** [localStorage.getItem(key)] followed by [if (stored)]: the stored text
    when there is one and it is not empty. *)
Definition storedText (key : string) (w : World) : option string :=
  match localStorage w !! key with
  | Some stored => if negb (String.eqb stored "") then Some stored else None
  | None => None
  end.

(** The effect that loads the configuration when [App] mounts
    (lines 31-46).  Without a stored text the state keeps its value. *)
Definition loadConfig (st : AppState) : io AppState :=
  λ w, match storedText LOCAL_STORAGE_CONFIG_KEY w with
       | Some stored =>
           try_catch
             (let* c := lift (let? parsed := JSON_parse stored in configOfParsed parsed) in
              ret (setConfig c st))
             (λ e,
                console_error "Error parsing config" e ;;;
                ret (setConfig DEFAULT_CONFIG st)) w
       | None => ret st w
       end.

Definition getN8nErrorAdvice (errorMsg : string) : option string :=
  if includes "Unused Respond to Webhook node" errorMsg
  then Some "N8N CONFIG ERROR: Open your N8N Webhook Node and change 'Respond' to 'Using Respond to Webhook Node'."
  else None.

(** The glyph that introduces the advice in a chat message, with the bytes
    it has in the source file. *)
Definition adviceMark : string := "ðŸ’¡".

(** [error instanceof Error ? error.message : "Unknown error"] *)
Definition errorMessageOf (error : thrown) : string :=
  match error with
  | JsError message => message
  | NotAnError _ => "Unknown error"
  end.

(** Lines 136-140: the text shown for a failed turn. *)
Definition chatDisplayMsg (errorMessage : string) : string :=
  let displayMsg := "Error: " +:+ errorMessage in
  match getN8nErrorAdvice errorMessage with
  | Some advice => displayMsg +:+ nl +:+ nl +:+ adviceMark +:+ " " +:+ advice
  | None => displayMsg
  end.

Definition attachmentOf (f : File.t) : ChatAttachment.t :=
  {| ChatAttachment.name := File.name f;
     ChatAttachment.type := File.type f;
     ChatAttachment.size := File.size f |}.

(** [handleSendMessage] (lines 104-153).  The URL and the history passed to
    [sendChatMessage] are those of the render the handler was created in,
    the state [st] it starts from; every [setMessages] is a functional
    update of the state current at that point.  The [catch] block cannot
    throw, so [finally] is what runs last. *)
Definition handleSendMessage (text : string) (attachments : list File.t)
    (st : AppState) : io AppState :=
  let* id := Date_now in
  let* timestamp := Date_now in
  let newUserMsg :=
    {| ChatMessage.id := pretty id;
       ChatMessage.role := USER;
       ChatMessage.content := VStr text;
       ChatMessage.timestamp := timestamp;
       ChatMessage.isError := None;
       ChatMessage.attachments := Some (attachmentOf <$> attachments) |} in
  let cur := setMessages (λ prev, prev ++ [newUserMsg]) st in
  let cur := setIsChatLoading true cur in
  let* cur :=
    try_catch
      (let* responseText :=
         sendChatMessage (WebhookConfig.chatUrl (config st)) text (messages st) attachments in
       let* id := Date_now in
       let* timestamp := Date_now in
       let botMsg :=
         {| ChatMessage.id := pretty (id + 1)%Z;
            ChatMessage.role := ASSISTANT;
            ChatMessage.content := responseText;
            ChatMessage.timestamp := timestamp;
            ChatMessage.isError := None;
            ChatMessage.attachments := None |} in
       ret (setMessages (λ prev, prev ++ [botMsg]) cur))
      (λ error,
         let errorMessage := errorMessageOf error in
         console_error "Chat failed" error ;;;
         let displayMsg := chatDisplayMsg errorMessage in
         let* id := Date_now in
         let* timestamp := Date_now in
         let errorMsg :=
           {| ChatMessage.id := pretty (id + 1)%Z;
              ChatMessage.role := ASSISTANT;
              ChatMessage.content := VStr displayMsg;
              ChatMessage.timestamp := timestamp;
              ChatMessage.isError := Some true;
              ChatMessage.attachments := None |} in
         ret (setMessages (λ prev, prev ++ [errorMsg]) cur)) in
  ret (setIsChatLoading false cur).

End App.

(** ** [SettingsModal.tsx] *)

Section SettingsModal.
Context `{Host}.

(** The effect run when the dialog opens (lines 15-31): the configuration
    shown in the inputs. *)
Definition SettingsModal_load (w : World) : WebhookConfig.t :=
  match storedText LOCAL_STORAGE_CONFIG_KEY w with
  | Some stored =>
      match (let? parsed := JSON_parse stored in configOfParsed parsed) with
      | Ok c => c
      | Throw _ => DEFAULT_CONFIG
      end
  | None => DEFAULT_CONFIG
  end.

End SettingsModal.

(** ** [components/FileUploader.tsx] *)

Section FileUploader.
Context `{Host}.

(** The updater [handleRemove] passes to [setFiles] (lines 43-51), run once
    on the current list, with the call of [URL.revokeObjectURL] it makes on
    the way. *)
Definition handleRemove (id : string) (prev : list FileUploadItem.t) (w : World)
    : list FileUploadItem.t * World :=
  let fileToRemove := List.find (λ f, String.eqb (FileUploadItem.id f) id) prev in
  let w :=
    match fileToRemove with
    | Some f =>
        match FileUploadItem.previewUrl f with
        | Some url => if negb (String.eqb url "") then revokeObjectURL url w else w
        | None => w
        end
    | None => w
    end in
  (List.filter (λ f, negb (String.eqb (FileUploadItem.id f) id)) prev, w).

(** Lines 129-136: the remove button is rendered for an item only while
    [item.status === 'pending']; its click handler is
    [handleRemove(item.id)]. *)
Definition removeButton (item : FileUploadItem.t)
    : option (list FileUploadItem.t → World → list FileUploadItem.t * World) :=
  match FileUploadItem.status item with
  | FileUploadItem.pending => Some (handleRemove (FileUploadItem.id item))
  | _ => None
  end.

(** A request to remove [item] from the rendered list: it goes through the
    button when there is one, and there is nothing to click otherwise. *)
Definition requestRemove (item : FileUploadItem.t) (prev : list FileUploadItem.t)
    (w : World) : list FileUploadItem.t * World :=
  match removeButton item with
  | Some onClick => onClick prev w
  | None => (prev, w)
  end.

End FileUploader.

(** ** A small host

    One host on which the program can be run inside Rocq: numbers are the
    integers, local time is UTC, and [JSON.parse] and [JSON.stringify] are
    implemented for documents whose number literals are integers (a
    fraction or an exponent is reported as a syntax error here) and whose
    [\u] escapes are not lone surrogates.  Strings are UTF-8 byte
    sequences.  It serves to evaluate the definitions above on concrete
    inputs; the properties are proved for every host. *)

Module SmallHost.

#[export] Instance numbers : JSNumber := {|
  number := Z;
  number_truthy := λ n, negb (n =? 0)%Z;
  number_toString := pretty;
|}.

(** *** [JSON.stringify] *)

Definition hexDigit (n : nat) : ascii :=
  ascii_of_nat (if (n <? 10)%nat then 48 + n else 87 + n).

(** [QuoteJSONString], character by character *)
Definition quoteChar (c : ascii) : string :=
  let n := nat_of_ascii c in
  if (n =? 8)%nat then "\b"
  else if (n =? 9)%nat then "\t"
  else if (n =? 10)%nat then "\n"
  else if (n =? 12)%nat then "\f"
  else if (n =? 13)%nat then "\r"
  else if (n =? 34)%nat then String "\" (String c "")
  else if (n =? 92)%nat then "\\"
  else if (n <? 32)%nat then "\u00" +:+ String (hexDigit (n / 16)) (String (hexDigit (n mod 16)) "")
  else String c "".

Fixpoint quoteChars (s : string) : string :=
  match s with
  | EmptyString => ""
  | String c rest => quoteChar c +:+ quoteChars rest
  end.

Definition dquote : string := String (ascii_of_nat 34) "".

Definition quote (s : string) : string := dquote +:+ quoteChars s +:+ dquote.

Definition commaSep (parts : list string) : string := String.concat "," parts.

(** [SerializeJSONProperty]: [None] is the [undefined] that makes an object
    drop the property and an array print [null]. *)
Fixpoint serialize (v : value) : option string :=
  match v with
  | VUndefined => None
  | VNull => Some "null"
  | VBool b => Some (if b then "true" else "false")
  | VNum n => Some (pretty n)
  | VStr s => Some (quote s)
  | VArr elems =>
      Some ("[" +:+ commaSep ((fix each (l : list value) : list string :=
                                 match l with
                                 | [] => []
                                 | x :: rest => default "null" (serialize x) :: each rest
                                 end) elems) +:+ "]")
  | VObj props =>
      Some ("{" +:+ commaSep ((fix each (l : list (string * value)) : list string :=
                                 match l with
                                 | [] => []
                                 | (k, x) :: rest =>
                                     match serialize x with
                                     | Some s => (quote k +:+ ":" +:+ s) :: each rest
                                     | None => each rest
                                     end
                                 end) props) +:+ "}")
  end.

(** At the top level [undefined] has no serialization; the program never
    asks for it. *)
Definition stringify (v : value) : string := default "undefined" (serialize v).

(** *** [JSON.parse] *)

Definition syntaxError : thrown := JsError "Unexpected token in JSON".

Definition isDigit (c : ascii) : bool :=
  let n := nat_of_ascii c in (48 <=? n)%nat && (n <=? 57)%nat.

Definition isWhite (c : ascii) : bool :=
  let n := nat_of_ascii c in
  (n =? 32)%nat || (n =? 9)%nat || (n =? 10)%nat || (n =? 13)%nat.

Fixpoint skipWhite (s : string) : string :=
  match s with
  | String c rest => if isWhite c then skipWhite rest else s
  | EmptyString => s
  end.

(** [s] without the prefix [p], when it starts with it *)
Fixpoint stripPrefix (p s : string) : option string :=
  match p, s with
  | EmptyString, _ => Some s
  | String a p', String b s' => if Ascii.eqb a b then stripPrefix p' s' else None
  | _, _ => None
  end.

Fixpoint digits (acc : Z) (s : string) : Z * string :=
  match s with
  | String c rest =>
      if isDigit c then digits (10 * acc + Z.of_nat (nat_of_ascii c - 48)) rest
      else (acc, s)
  | EmptyString => (acc, s)
  end.

(** An integer literal: [0], or a non-zero digit and more digits.  What
    follows must not continue a number. *)
Definition natural (s : string) : option (Z * string) :=
  match s with
  | String c rest =>
      if negb (isDigit c) then None
      else
        let '(n, rest') := if Ascii.eqb c "0" then (0%Z, rest) else digits 0 s in
        match rest' with
        | String d _ =>
            if Ascii.eqb d "." || Ascii.eqb d "e" || Ascii.eqb d "E" || isDigit d
            then None else Some (n, rest')
        | EmptyString => Some (n, rest')
        end
  | EmptyString => None
  end.

Definition hexValue (c : ascii) : option N :=
  let n := N_of_ascii c in
  if isDigit c then Some (n - 48)%N
  else if (97 <=? n)%N && (n <=? 102)%N then Some (n - 87)%N
  else if (65 <=? n)%N && (n <=? 70)%N then Some (n - 55)%N
  else None.

(** Four hexadecimal digits *)
Definition hex4 (s : string) : option (N * string) :=
  match s with
  | String a (String b (String c (String d rest))) =>
      a ← hexValue a; b ← hexValue b; c ← hexValue c; d ← hexValue d;
      Some ((((a * 16 + b) * 16 + c) * 16 + d)%N, rest)
  | _ => None
  end.

Definition byte (n : N) : string := String (ascii_of_N n) "".

(** UTF-8 encoding of a code point *)
Definition utf8 (cp : N) : string :=
  (if cp <? 128 then byte cp
   else if cp <? 2048 then byte (192 + cp `div` 64) +:+ byte (128 + cp `mod` 64)
   else if cp <? 65536 then
     byte (224 + cp `div` 4096) +:+ byte (128 + (cp `div` 64) `mod` 64)
     +:+ byte (128 + cp `mod` 64)
   else
     byte (240 + cp `div` 262144) +:+ byte (128 + (cp `div` 4096) `mod` 64)
     +:+ byte (128 + (cp `div` 64) `mod` 64) +:+ byte (128 + cp `mod` 64))%N.

(** What follows [\u]: one code unit, or a surrogate pair. *)
Definition unicodeEscape (s : string) : option (string * string) :=
  '(hi, rest) ← hex4 s;
  if ((hi <? 55296) || (57344 <=? hi))%N then Some (utf8 hi, rest)
  else if (hi <? 56320)%N then
    rest ← stripPrefix "\u" rest;
    '(lo, rest) ← hex4 rest;
    if ((56320 <=? lo) && (lo <? 57344))%N
    then Some (utf8 (65536 + (hi - 55296) * 1024 + (lo - 56320))%N, rest)
    else None
  else None.

(** The characters of a string literal after its opening quote. *)
Fixpoint stringBody (fuel : nat) (s : string) : option (string * string) :=
  match fuel with
  | O => None
  | S fuel =>
      match s with
      | EmptyString => None
      | String c rest =>
          let n := nat_of_ascii c in
          if (n =? 34)%nat then Some ("", rest)
          else if (n <? 32)%nat then None
          else if (n =? 92)%nat then
            match rest with
            | String e rest' =>
                '(decoded, rest'') ←
                  (if Ascii.eqb e "u" then unicodeEscape rest'
                   else if Ascii.eqb e "b" then Some (byte 8, rest')
                   else if Ascii.eqb e "t" then Some (byte 9, rest')
                   else if Ascii.eqb e "n" then Some (byte 10, rest')
                   else if Ascii.eqb e "f" then Some (byte 12, rest')
                   else if Ascii.eqb e "r" then Some (byte 13, rest')
                   else if (nat_of_ascii e =? 34)%nat || Ascii.eqb e "\" || Ascii.eqb e "/"
                   then Some (String e "", rest')
                   else None);
                '(more, rest''') ← stringBody fuel rest'';
                Some (decoded +:+ more, rest''')
            | EmptyString => None
            end
          else
            '(more, rest') ← stringBody fuel rest;
            Some (String c more, rest')
      end
  end.

(** An array index as a property name: [0] or a decimal without leading
    zero, below [2^32 - 1]. *)
Definition arrayIndex (k : string) : option Z :=
  match natural k with
  | Some (n, EmptyString) => if (n <? 4294967295)%Z then Some n else None
  | _ => None
  end.

(** [CreateDataProperty] on a plain object: a known key keeps its place and
    takes the new value; a new array index goes among the indices, in
    ascending order, ahead of all other keys; any other new key goes last. *)
Definition replaceProperty (k : string) (v : value) (props : list (string * value))
    : list (string * value) :=
  (λ p, if String.eqb p.1 k then (k, v) else p) <$> props.

Fixpoint insertIndex (n : Z) (k : string) (v : value) (props : list (string * value))
    : list (string * value) :=
  match props with
  | [] => [(k, v)]
  | (k', v') :: rest =>
      match arrayIndex k' with
      | Some m => if (m <? n)%Z then (k', v') :: insertIndex n k v rest
                  else (k, v) :: props
      | None => (k, v) :: props
      end
  end.

Definition setProperty (k : string) (v : value) (props : list (string * value))
    : list (string * value) :=
  match own_property k props with
  | Some _ => replaceProperty k v props
  | None =>
      match arrayIndex k with
      | Some n => insertIndex n k v props
      | None => props ++ [(k, v)]
      end
  end.

Fixpoint parseValue (fuel : nat) (s : string) : option (value * string) :=
  match fuel with
  | O => None
  | S fuel =>
      match skipWhite s with
      | EmptyString => None
      | String c rest =>
          let n := nat_of_ascii c in
          if (n =? 34)%nat then
            '(str, rest') ← stringBody (String.length rest) rest; Some (VStr str, rest')
          else if Ascii.eqb c "[" then
            match skipWhite rest with
            | String "]" rest' => Some (VArr [], rest')
            | _ => parseElements fuel [] rest
            end
          else if Ascii.eqb c "{" then
            match skipWhite rest with
            | String "}" rest' => Some (VObj [], rest')
            | _ => parseMembers fuel [] rest
            end
          else if Ascii.eqb c "-" then
            '(m, rest') ← natural rest; Some (VNum (- m)%Z, rest')
          else if isDigit c then
            '(m, rest') ← natural (String c rest); Some (VNum m, rest')
          else if Ascii.eqb c "n" then rest' ← stripPrefix "ull" rest; Some (VNull, rest')
          else if Ascii.eqb c "t" then rest' ← stripPrefix "rue" rest; Some (VBool true, rest')
          else if Ascii.eqb c "f" then rest' ← stripPrefix "alse" rest; Some (VBool false, rest')
          else None
      end
  end
with parseElements (fuel : nat) (acc : list value) (s : string) : option (value * string) :=
  match fuel with
  | O => None
  | S fuel =>
      '(v, rest) ← parseValue fuel s;
      match skipWhite rest with
      | String "," rest' => parseElements fuel (acc ++ [v]) rest'
      | String "]" rest' => Some (VArr (acc ++ [v]), rest')
      | _ => None
      end
  end
with parseMembers (fuel : nat) (acc : list (string * value)) (s : string)
    : option (value * string) :=
  match fuel with
  | O => None
  | S fuel =>
      match skipWhite s with
      | String c rest =>
          if negb (nat_of_ascii c =? 34)%nat then None
          else
            '(k, rest) ← stringBody (String.length rest) rest;
            match skipWhite rest with
            | String ":" rest =>
                '(v, rest) ← parseValue fuel rest;
                match skipWhite rest with
                | String "," rest' => parseMembers fuel (setProperty k v acc) rest'
                | String "}" rest' => Some (VObj (setProperty k v acc), rest')
                | _ => None
                end
            | _ => None
            end
      | EmptyString => None
      end
  end.

(** One value, with white space around it and nothing else. *)
Definition parse (text : string) : result value :=
  match parseValue (2 * String.length text + 2) text with
  | Some (v, rest) =>
      match skipWhite rest with
      | EmptyString => Ok v
      | _ => Throw syntaxError
      end
  | None => Throw syntaxError
  end.

#[export] Instance host : Host := {|
  JSON_parse := parse;
  JSON_stringify := stringify;
  LocalTZA := λ _, 0%Z;
  type_error_message := λ e,
    match e with
    | ReadOfNullish k => "Cannot read properties of null (reading '" +:+ k +:+ "')"
    | NoPrimitive => "Cannot convert object to primitive value"
    end;
|}.

End SmallHost.


(** Concrete JSON texts are written with ['] where the text has a double
    quote. *)
Fixpoint jsonText (s : string) : string :=
  match s with
  | EmptyString => ""
  | String c rest =>
      String (if Ascii.eqb c "'" then ascii_of_nat 34 else c) (jsonText rest)
  end.

(** ** Reading a run of the transport layer *)

Section Observations.
Context `{Host}.

(** The request [sendChatMessage] builds in a world: its session identifier
    comes from the reading the clock gives next. *)
Definition chatRequest (url : value) (message : string) (history : list ChatMessage.t)
    (files : list File.t) (w : World) : Request :=
  {| req_url := url;
     req_method := "POST";
     req_body := chatFormData ("session-" +:+ Date.toDateString (now w)) message history files |}.

Definition uploadRequest (url : value) (files : list File.t) (textContext : option string)
    (w : World) : Request :=
  {| req_url := url;
     req_method := "POST";
     req_body := uploadFormData ("ingestion-" +:+ Date.toDateString (now w)) files textContext |}.

(** The value [errorDesc] ends with, without the plumbing. *)
Definition errorDescOf (response : Response) : value :=
  match (let? errorText := body response in
         let? errorJson := JSON_parse errorText in
         errorFields errorJson) with
  | Ok v => v
  | Throw _ => VStr (statusText response)
  end.

(** What a non-success response makes the functions throw. *)
Definition errorOf (response : Response) : thrown :=
  match new_Error (errorDescOf response) with
  | Ok e => e
  | Throw e => e
  end.

(** What a success response with the given text makes [sendChatMessage]
    return. *)
Definition replyOf (responseText : string) : value :=
  match (let? data := JSON_parse responseText in replyFields data) with
  | Ok v => v
  | Throw _ => VStr responseText
  end.

(** The parts of a body that carry a file, with their names. *)
Definition binaryParts (fd : FormData.t) : list (string * File.t) :=
  omap (λ p, match p.2 with
             | FormData.Binary f => Some (p.1, f)
             | FormData.Text _ => None
             end) fd.

(** The first of [keys], in order, under which [data] holds a truthy value. *)
Fixpoint firstTruthy (keys : list string) (data : value) : option value :=
  match keys with
  | [] => None
  | k :: rest =>
      match get data k with
      | Ok v => if ToBoolean v then Some v else firstTruthy rest data
      | Throw _ => None
      end
  end.

(** [null] and [undefined], from which no property can be read. *)
Definition nullish (v : value) : bool :=
  match v with
  | VUndefined | VNull => true
  | _ => false
  end.

End Observations.

Section BodyShape.
Context `{Host}.

(** The parts [forEach appendFile] adds for a list of files, the first of
    which has the given index. *)
Fixpoint fileParts (index : nat) (files : list File.t) : FormData.t :=
  match files with
  | [] => []
  | file :: rest =>
      (fileKey index, FormData.Binary file)
      :: ("file_metadata", FormData.Text (JSON_stringify (metadata file index)))
      :: fileParts (S index) rest
  end.

(** The metadata objects of a list of files, by index. *)
Definition metadataObjects (files : list File.t) : list value :=
  imap (λ index file, metadata file index) files.

End BodyShape.

Definition digitChar (c : ascii) : Prop := (48 ≤ nat_of_ascii c ≤ 57)%nat.

(** ** Concrete inputs, on the small host *)

Module Examples.
Import SmallHost.

(** 3 November 2026, 00:00 UTC, in milliseconds. *)
Definition morning : Z := 1793664000000.

(** A world whose clock starts at [start] and advances by a millisecond at
    each reading, and whose network gives every request the same answer. *)
Definition world (start : Z) (answer : fetch_outcome) : World :=
  {| clock := λ n, (Z.of_nat n + start)%Z;
     ticks := 0;
     network := λ _, answer;
     sent := [];
     console := [];
     localStorage := ∅;
     revoked := [] |}.

Definition response (status : nat) (statusText body : string) : Response :=
  {| status := status; statusText := statusText; body := Ok (jsonText body) |}.

Definition respond (status : nat) (statusText body : string) : fetch_outcome :=
  Fulfilled (response status statusText body).

(** A world in which the given text is stored under the configuration key. *)
Definition worldWithStored (stored : string) : World :=
  {| clock := λ n, (Z.of_nat n + morning)%Z;
     ticks := 0;
     network := λ _, Rejected (JsError "Failed to fetch");
     sent := [];
     console := [];
     localStorage := {[ LOCAL_STORAGE_CONFIG_KEY := jsonText stored ]};
     revoked := [] |}.

Definition hook : value := VStr "https://n8n.example/webhook/chat".

Definition notes : File.t :=
  {| File.name := "notes.txt"; File.type := "text/plain"; File.size := 3%Z;
     File.bytes := [Byte.x61; Byte.x62; Byte.x63] |}.

Definition photo : File.t :=
  {| File.name := "photo.png"; File.type := "image/png"; File.size := 2%Z;
     File.bytes := [Byte.x89; Byte.x50] |}.

(** A queue of three items: a document that failed to upload, and a
    picture and a document selected since. *)
Definition failedItem : FileUploadItem.t :=
  {| FileUploadItem.id := "k3v9qa"; FileUploadItem.file := notes;
     FileUploadItem.previewUrl := None;
     FileUploadItem.status := FileUploadItem.error;
     FileUploadItem.type := FileUploadItem.document |}.

Definition pictureItem : FileUploadItem.t :=
  {| FileUploadItem.id := "p07xw"; FileUploadItem.file := photo;
     FileUploadItem.previewUrl := Some "blob:https://app.example/4f2a";
     FileUploadItem.status := FileUploadItem.pending;
     FileUploadItem.type := FileUploadItem.image |}.

Definition documentItem : FileUploadItem.t :=
  {| FileUploadItem.id := "zz81m"; FileUploadItem.file := notes;
     FileUploadItem.previewUrl := None;
     FileUploadItem.status := FileUploadItem.pending;
     FileUploadItem.type := FileUploadItem.document |}.

Definition queue : list FileUploadItem.t := [failedItem; pictureItem; documentItem].

(** A picture that failed to upload and whose identifier is the one drawn
    again for [pictureItem]: [Math.random] gives no guarantee against it. *)
Definition failedPicture : FileUploadItem.t :=
  {| FileUploadItem.id := "p07xw"; FileUploadItem.file := photo;
     FileUploadItem.previewUrl := Some "blob:https://app.example/9c1e";
     FileUploadItem.status := FileUploadItem.error;
     FileUploadItem.type := FileUploadItem.image |}.

End Examples.

Section FileShape.
Context `{Host}.

(** What it means for a body to carry a list of files: its binary parts are
    those files in order, under the pairwise distinct names [file_0],
    [file_1], ...; its parts named
    [file_metadata] are the serialized metadata objects of the files, in the
    same order, each object naming in [key] the binary part of the same
    rank; and its one [file_count] part is the number of files in decimal. *)
Definition carriesFiles (files : list File.t) (body : FormData.t) : Prop :=
  (binaryParts body).*2 = files
  ∧ length (binaryParts body) = length files
  ∧ (binaryParts body).*1 = fileKey <$> seq 0 (length files)
  ∧ NoDup (binaryParts body).*1
  ∧ FormData.getAll "file_metadata" body
    = (λ m, FormData.Text (JSON_stringify m)) <$> metadataObjects files
  ∧ length (FormData.getAll "file_metadata" body) = length files
  ∧ (λ m, get m "key") <$> metadataObjects files
    = (λ k, Ok (VStr k)) <$> (binaryParts body).*1
  ∧ FormData.getAll "file_count" body = [FormData.Text (pretty (length files))].

End FileShape.

Section AsSpecified.
Context `{Host}.

(** The first of [keys] that is an own property of the object, present
    being all that is asked of it. *)
Fixpoint firstPresent (keys : list string) (props : list (string * value)) : option value :=
  match keys with
  | [] => None
  | k :: rest =>
      match own_property k props with
      | Some v => Some v
      | None => firstPresent rest props
      end
  end.

(** The error message in the words of the specification: the string of the
    first recognizable field of the parsed body, and the status text in
    every other case. *)
Definition specifiedErrorMessage (response : Response) : string :=
  match (let? errorText := body response in JSON_parse errorText) with
  | Ok (VObj props) =>
      match firstPresent ["errorMessage"; "message"] props with
      | Some (VStr s) => s
      | _ => statusText response
      end
  | _ => statusText response
  end.

(** The reply in the words of the specification: for an object the first
    candidate field that is present, else its serialization; a string as it
    is; the raw text when parsing fails.  Where those words are silent
    (other parsed values) the code is followed. *)
Definition specifiedReply (responseText : string) : value :=
  match JSON_parse responseText with
  | Ok (VObj props) =>
      match firstPresent ["output"; "text"; "message"] props with
      | Some v => v
      | None => VStr (JSON_stringify (VObj props))
      end
  | Ok (VStr s) => VStr s
  | Ok _ => replyOf responseText
  | Throw _ => VStr responseText
  end.

(** An object without its property [k]. *)
Definition withoutProperty (k : string) (props : list (string * value))
    : list (string * value) :=
  filter (λ p, p.1 ≠ k) props.

End AsSpecified.

Module Runs.
Import SmallHost Examples.

(** [sendChatMessage] and [uploadFilesToWebhook] called once, on the
    morning of 3 November 2026, against a network that gives the answer. *)
Definition chat (answer : fetch_outcome) : result value * World :=
  sendChatMessage hook "hi" [] [] (world morning answer).

Definition upload (answer : fetch_outcome) : result unit * World :=
  uploadFilesToWebhook hook [] None (world morning answer).

(** The contents of the conversation after [handleSendMessage] has run once
    from the initial state. *)
Definition turn (answer : fetch_outcome) : list value :=
  match (handleSendMessage "hi" [] initialState (world morning answer)).1 with
  | Ok st => ChatMessage.content <$> messages st
  | Throw _ => []
  end.

End Runs.

Section StoredDocument.
Context `{Host}.

(** The document a loader works from: the stored text when there is one, it
    is not empty, it parses, and the value is one properties can be read
    from. *)
Definition storedDocument (w : World) : option value :=
  match storedText LOCAL_STORAGE_CONFIG_KEY w with
  | Some stored =>
      match JSON_parse stored with
      | Ok parsed => if nullish parsed then None else Some parsed
      | Throw _ => None
      end
  | None => None
  end.

End StoredDocument.

(** ** [App.tsx]: the upload tab *)

(** [{ success: boolean, message: string }] *)
Module UploadStatus.
Record t := mk {
  success : bool;
  message : string;
}.
End UploadStatus.

(** The part of the component state that [handleUpload] reads and writes. *)
Module UploadTab.
Record t `{JSNumber} := mk {
  config : WebhookConfig.t;
  files : list FileUploadItem.t;
  textContext : string;
  isProcessingUpload : bool;
  uploadStatus : option UploadStatus.t;
  isSettingsOpen : bool;
}.
End UploadTab.

Section Upload.
Context `{Host}.
Local Open Scope io_scope.

(** [String.prototype.trim], a builtin the handlers call. *)
Variable trim : string → string.

Definition setIsSettingsOpen (b : bool) (st : UploadTab.t) : UploadTab.t :=
  {| UploadTab.config := UploadTab.config st;
     UploadTab.files := UploadTab.files st;
     UploadTab.textContext := UploadTab.textContext st;
     UploadTab.isProcessingUpload := UploadTab.isProcessingUpload st;
     UploadTab.uploadStatus := UploadTab.uploadStatus st;
     UploadTab.isSettingsOpen := b |}.

Definition setIsProcessingUpload (b : bool) (st : UploadTab.t) : UploadTab.t :=
  {| UploadTab.config := UploadTab.config st;
     UploadTab.files := UploadTab.files st;
     UploadTab.textContext := UploadTab.textContext st;
     UploadTab.isProcessingUpload := b;
     UploadTab.uploadStatus := UploadTab.uploadStatus st;
     UploadTab.isSettingsOpen := UploadTab.isSettingsOpen st |}.

Definition setUploadStatus (s : option UploadStatus.t) (st : UploadTab.t) : UploadTab.t :=
  {| UploadTab.config := UploadTab.config st;
     UploadTab.files := UploadTab.files st;
     UploadTab.textContext := UploadTab.textContext st;
     UploadTab.isProcessingUpload := UploadTab.isProcessingUpload st;
     UploadTab.uploadStatus := s;
     UploadTab.isSettingsOpen := UploadTab.isSettingsOpen st |}.

Definition setUploadFiles (f : list FileUploadItem.t → list FileUploadItem.t)
    (st : UploadTab.t) : UploadTab.t :=
  {| UploadTab.config := UploadTab.config st;
     UploadTab.files := f (UploadTab.files st);
     UploadTab.textContext := UploadTab.textContext st;
     UploadTab.isProcessingUpload := UploadTab.isProcessingUpload st;
     UploadTab.uploadStatus := UploadTab.uploadStatus st;
     UploadTab.isSettingsOpen := UploadTab.isSettingsOpen st |}.

Definition setTextContext (s : string) (st : UploadTab.t) : UploadTab.t :=
  {| UploadTab.config := UploadTab.config st;
     UploadTab.files := UploadTab.files st;
     UploadTab.textContext := s;
     UploadTab.isProcessingUpload := UploadTab.isProcessingUpload st;
     UploadTab.uploadStatus := UploadTab.uploadStatus st;
     UploadTab.isSettingsOpen := UploadTab.isSettingsOpen st |}.

(** [{ ...f, status }] *)
Definition withStatus (s : FileUploadItem.status_t) (f : FileUploadItem.t)
    : FileUploadItem.t :=
  {| FileUploadItem.id := FileUploadItem.id f;
     FileUploadItem.file := FileUploadItem.file f;
     FileUploadItem.previewUrl := FileUploadItem.previewUrl f;
     FileUploadItem.status := s;
     FileUploadItem.type := FileUploadItem.type f |}.

(** [files.length === 0 && !textContext.trim()] *)
Definition nothingToUpload (st : UploadTab.t) : bool :=
  (length (UploadTab.files st) =? 0)%nat
  && String.eqb (trim (UploadTab.textContext st)) "".

(** Lines 89-93: the text shown for a failed upload. *)
Definition uploadDisplayMsg (errorMessage : string) : string :=
  match getN8nErrorAdvice errorMessage with
  | Some advice => errorMessage +:+ nl +:+ nl +:+ "FIX: " +:+ advice
  | None => "Failed to upload: " +:+ errorMessage
  end.

(** The callback given to [setTimeout] after a successful upload. *)
Definition clearUpload (st : UploadTab.t) : UploadTab.t :=
  setUploadStatus None (setTextContext "" (setUploadFiles (λ _, []) st)).

(** [handleUpload] (lines 55-102).  The URL, the files and the text passed
    to [uploadFilesToWebhook] are those of the render the handler was
    created in, the state [st]; every [setFiles] is a functional update.
    Beside the state, the result tells the delay of the timer set with
    [setTimeout], if one was set; its callback is [clearUpload]. *)
Definition handleUpload (st : UploadTab.t) : io (UploadTab.t * option nat) :=
  if nothingToUpload st then ret (st, None)
  else if negb (ToBoolean (WebhookConfig.ingestionUrl (UploadTab.config st)))
  then ret (setIsSettingsOpen true st, None)
  else
    let cur := setIsProcessingUpload true st in
    let cur := setUploadStatus None cur in
    let cur := setUploadFiles (fmap (withStatus FileUploadItem.uploading)) cur in
    let* r :=
      try_catch
        (let rawFiles := FileUploadItem.file <$> UploadTab.files st in
         uploadFilesToWebhook (WebhookConfig.ingestionUrl (UploadTab.config st))
           rawFiles (Some (UploadTab.textContext st)) ;;;
         let cur := setUploadFiles (fmap (withStatus FileUploadItem.success)) cur in
         let cur := setUploadStatus
           (Some {| UploadStatus.success := true;
                    UploadStatus.message := "Success! Files and prompt sent to N8N." |})
           cur in
         ret (cur, Some 2000))
        (λ error,
           let errorMessage := errorMessageOf error in
           console_error "Upload failed" error ;;;
           let cur := setUploadFiles (fmap (withStatus FileUploadItem.error)) cur in
           let displayMsg := uploadDisplayMsg errorMessage in
           ret (setUploadStatus
                  (Some {| UploadStatus.success := false;
                           UploadStatus.message := displayMsg |})
                  cur, None)) in
    ret (setIsProcessingUpload false r.1, r.2).

End Upload.

(** ** [SettingsModal.tsx]: saving *)

Section Saving.
Context `{Host}.

(** A configuration as the object it is. *)
Definition configValue (c : WebhookConfig.t) : value :=
  VObj [("ingestionUrl", WebhookConfig.ingestionUrl c);
        ("chatUrl", WebhookConfig.chatUrl c)].

(** [localStorage.setItem(key, text)] *)
Definition setItem (key text : string) (w : World) : World :=
  {| clock := clock w; ticks := ticks w; network := network w;
     sent := sent w; console := console w;
     localStorage := <[key := text]> (localStorage w); revoked := revoked w |}.

(** [handleSave] (lines 33-37): the configuration of the dialog is stored,
    then handed to [App], whose [onSave] is [setConfig].  Closing the
    dialog changes no state modelled here. *)
Definition handleSave (dialogConfig : WebhookConfig.t) (st : AppState) (w : World)
    : AppState * World :=
  let w := setItem LOCAL_STORAGE_CONFIG_KEY (JSON_stringify (configValue dialogConfig)) w in
  (setConfig dialogConfig st, w).

End Saving.

(** ** [components/FileUploader.tsx]: adding files *)

Section Adding.
Context `{Host}.

(** [s.startsWith(prefix)] *)
Definition startsWith (prefix s : string) : bool := String.prefix prefix s.

Definition getFileType (file : File.t) : FileUploadItem.type_t :=
  if startsWith "image/" (File.type file) then FileUploadItem.image
  else if startsWith "video/" (File.type file) then FileUploadItem.video
  else if startsWith "audio/" (File.type file) then FileUploadItem.audio
  else FileUploadItem.document.

(** [handleFiles] (lines 22-34) as the updater it passes to [setFiles].
    What the browser decides is given: [randomId i] is the identifier drawn
    with [Math.random] for the file of rank [i], and [createObjectURL i]
    the URL the browser returns when asked for one for that file. *)
Definition handleFiles (randomId createObjectURL : nat → string)
    (incomingFiles : option (list File.t)) (prev : list FileUploadItem.t)
    : list FileUploadItem.t :=
  match incomingFiles with
  | None => prev
  | Some incoming =>
      let newFiles :=
        imap (λ i file,
                {| FileUploadItem.id := randomId i;
                   FileUploadItem.file := file;
                   FileUploadItem.type := getFileType file;
                   FileUploadItem.previewUrl :=
                     if startsWith "image/" (File.type file)
                     then Some (createObjectURL i) else None;
                   FileUploadItem.status := FileUploadItem.pending |}) incoming in
      prev ++ newFiles
  end.

(** [handleDrop] (lines 36-41) *)
Definition handleDrop (isProcessing : bool) (randomId createObjectURL : nat → string)
    (dropped : list File.t) (prev : list FileUploadItem.t) : list FileUploadItem.t :=
  if isProcessing then prev
  else handleFiles randomId createObjectURL (Some dropped) prev.

End Adding.

(** ** [components/ChatInterface.tsx] *)

(** [input] and [attachedFiles], the state of the message composer. *)
Module Composer.
Record t `{JSNumber} := mk {
  input : string;
  attachedFiles : list File.t;
}.
End Composer.

Section ChatInterface.
Context `{Host}.
Variable trim : string → string.

(** [prev.filter((_, i) => i !== index)], counting from [from] *)
Fixpoint filterNotIndex {A} (index from : nat) (l : list A) : list A :=
  match l with
  | [] => []
  | x :: rest =>
      if (from =? index)%nat then filterNotIndex index (S from) rest
      else x :: filterNotIndex index (S from) rest
  end.

Definition removeFile {A} (index : nat) (prev : list A) : list A :=
  filterNotIndex index 0 prev.

(** [handleFileSelect] (lines 34-42): [e.target.files], when there are any,
    go after the files already attached. *)
Definition handleFileSelect (selected : option (list File.t)) (c : Composer.t)
    : Composer.t :=
  match selected with
  | Some (file :: more) =>
      {| Composer.input := Composer.input c;
         Composer.attachedFiles := Composer.attachedFiles c ++ file :: more |}
  | _ => c
  end.

(** [handleSubmit] (lines 48-55): the composer afterwards, and the
    arguments of the call of [onSendMessage], if it was made. *)
Definition handleSubmit (isLoading : bool) (c : Composer.t)
    : Composer.t * option (string * list File.t) :=
  if (String.eqb (trim (Composer.input c)) ""
      && (length (Composer.attachedFiles c) =? 0)%nat)
     || isLoading
  then (c, None)
  else ({| Composer.input := ""; Composer.attachedFiles := [] |},
        Some (trim (Composer.input c), Composer.attachedFiles c)).

End ChatInterface.

(** ** Driving the conversation *)

Section Turns.
Context `{Host}.
Local Open Scope io_scope.

(** One call of [handleSendMessage] after another, each made from the
    state the previous one left. *)
Fixpoint sendAll (turns : list (string * list File.t)) (st : AppState) : io AppState :=
  match turns with
  | [] => ret st
  | (text, attachments) :: rest =>
      let* st := handleSendMessage text attachments st in
      sendAll rest st
  end.

End Turns.

#[global] Instance MessageRole_eq_dec : EqDecision MessageRole.
Proof. solve_decision. Defined.

(** ** [App.tsx]: the chat tab *)

Section ChatTab.
Context `{Host}.
Variable trim : string → string.
Local Open Scope io_scope.

(** The form of [ChatInterface] as [App] renders it (lines 309-315), with
    [isLoading={isChatLoading}] and [onSendMessage={handleSendMessage}]: a
    submit of the composer, and the turn it starts when it starts one. *)
Definition submit (c : Composer.t) (st : AppState) : io (Composer.t * AppState) :=
  match handleSubmit trim (isChatLoading st) c with
  | (c', Some (text, attachments)) =>
      let* st' := handleSendMessage text attachments st in
      ret (c', st')
  | (c', None) => ret (c', st)
  end.

End ChatTab.

(** [String.prototype.trim] on texts whose only white space is the ASCII
    space, for running the handlers on concrete inputs. *)
Module SpaceTrim.

Fixpoint trimStart (s : string) : string :=
  match s with
  | String c rest => if Ascii.eqb c " " then trimStart rest else s
  | EmptyString => s
  end.

Definition trim (s : string) : string :=
  String.rev (trimStart (String.rev (trimStart s))).

End SpaceTrim.

(** Inputs for running the handlers of the two tabs. *)
Module Sessions.
Import SmallHost Examples.

Definition ingest : value := VStr "https://n8n.example/webhook/ingest".

(** The upload tab with the given URL, queue and context. *)
Definition tab (url : value) (files : list FileUploadItem.t) (text : string)
    : UploadTab.t :=
  {| UploadTab.config := {| WebhookConfig.ingestionUrl := url;
                            WebhookConfig.chatUrl := hook |};
     UploadTab.files := files;
     UploadTab.textContext := text;
     UploadTab.isProcessingUpload := false;
     UploadTab.uploadStatus := None;
     UploadTab.isSettingsOpen := false |}.

(** A conversation of one turn already made. *)
Definition asked : ChatMessage.t :=
  {| ChatMessage.id := "1793663990000"; ChatMessage.role := USER;
     ChatMessage.content := VStr "hello"; ChatMessage.timestamp := 1793663990000;
     ChatMessage.isError := None; ChatMessage.attachments := Some [] |}.

Definition answered : ChatMessage.t :=
  {| ChatMessage.id := "1793663990004"; ChatMessage.role := ASSISTANT;
     ChatMessage.content := VStr "hi there"; ChatMessage.timestamp := 1793663990003;
     ChatMessage.isError := None; ChatMessage.attachments := None |}.

Definition talking : AppState :=
  {| config := {| WebhookConfig.ingestionUrl := ingest; WebhookConfig.chatUrl := hook |};
     messages := [asked; answered];
     isChatLoading := false |}.

(** Identifiers and preview URLs as a browser could hand them out. *)
Definition drawn (i : nat) : string := "n" +:+ pretty i.
Definition blob (i : nat) : string := "blob:https://app.example/" +:+ pretty i.

(** A success response whose body cannot be read. *)
Definition unreadable : Response :=
  {| status := 204; statusText := "No Content";
     body := Throw (JsError "body stream already read") |}.

End Sessions.

(** * Properties *)

Section Transport.
Context `{Host}.

Lemma errorDesc_run response w :
  errorDesc response w = (Ok (errorDescOf response), w).
Proof.
  unfold errorDesc, errorDescOf, try_catch, bind, text, lift, ret.
  destruct (body response) as [errorText|e]; simpl; [|done].
  destruct (JSON_parse errorText) as [errorJson|e]; simpl; [|done].
  by destruct (errorFields errorJson).
Qed.

Lemma throwError_run {A} v w :
  throwError (A := A) v w = (Throw (match new_Error v with Ok e => e | Throw e => e end), w).
Proof. unfold throwError, throw. by destruct (new_Error v). Qed.

Lemma reply_run response w :
  reply response w =
  match body response with
  | Ok responseText => (Ok (replyOf responseText), w)
  | Throw e => (Throw e, w)
  end.
Proof.
  unfold reply, replyOf, try_catch, bind, text, lift, ret.
  destruct (body response) as [responseText|e]; [|done].
  destruct (JSON_parse responseText) as [data|e]; simpl; [|done].
  by destruct (replyFields data).
Qed.

(** The whole of [sendChatMessage] once the URL is set: one reading of the
    clock, one request, and the outcome decided by the answer. *)
Lemma sendChatMessage_run url message history files w :
  ToBoolean url = true →
  sendChatMessage url message history files w =
  let req := chatRequest url message history files w in
  let w' := post req (tick w) in
  let failed e := (Throw e, logError "Failed to send message to N8N:" e w') in
  match network w (sent w ++ [req]) with
  | Rejected e => failed e
  | Fulfilled response =>
      if ok response then
        match body response with
        | Ok responseText => (Ok (replyOf responseText), w')
        | Throw e => failed e
        end
      else failed (errorOf response)
  end.
Proof.
  intros Hurl. unfold sendChatMessage. rewrite Hurl. simpl.
  unfold try_catch at 1, bind at 1, Date_now. unfold bind at 1, fetch. simpl.
  fold (chatRequest url message history files w).
  destruct (network w _) as [e|response]; simpl; [done|].
  destruct (ok response); simpl.
  - rewrite reply_run. by destruct (body response).
  - unfold bind. rewrite errorDesc_run, throwError_run. done.
Qed.

Lemma sendChatMessage_unset url message history files w :
  ToBoolean url = false →
  sendChatMessage url message history files w =
  (Throw (JsError "Chat Webhook URL is not configured."), w).
Proof. intros Hurl. unfold sendChatMessage. by rewrite Hurl. Qed.

Lemma uploadFilesToWebhook_run url files textContext w :
  ToBoolean url = true →
  uploadFilesToWebhook url files textContext w =
  let req := uploadRequest url files textContext w in
  let w' := post req (tick w) in
  let failed e := (Throw e, logError "Failed to upload files to N8N:" e w') in
  match network w (sent w ++ [req]) with
  | Rejected e => failed e
  | Fulfilled response =>
      if ok response then (Ok tt, w') else failed (errorOf response)
  end.
Proof.
  intros Hurl. unfold uploadFilesToWebhook. rewrite Hurl. simpl.
  unfold bind at 1, Date_now. unfold try_catch, bind at 1, fetch. simpl.
  fold (uploadRequest url files textContext w).
  destruct (network w _) as [e|response]; simpl; [done|].
  destruct (ok response); simpl; [done|].
  unfold bind. rewrite errorDesc_run, throwError_run. done.
Qed.

Lemma uploadFilesToWebhook_unset url files textContext w :
  ToBoolean url = false →
  uploadFilesToWebhook url files textContext w =
  (Throw (JsError "Ingestion Webhook URL is not configured."), w).
Proof. intros Hurl. unfold uploadFilesToWebhook. by rewrite Hurl. Qed.

End Transport.

(** ** The multipart body *)

Section Body.
Context `{Host}.

Lemma forEach_appendFile files index (formData : FormData.t) :
  forEach appendFile files index formData = formData ++ fileParts index files.
Proof.
  revert index formData.
  induction files as [|file rest IH]; intros index formData; simpl.
  - by rewrite app_nil_r.
  - rewrite IH. unfold appendFile, FormData.append.
    by rewrite <- !app_assoc.
Qed.

Lemma chatFormData_parts sessionId message history files :
  chatFormData sessionId message history files =
  [("message", FormData.Text message);
   ("chatInput", FormData.Text message);
   ("sessionId", FormData.Text sessionId);
   ("history", FormData.Text (JSON_stringify (VArr (historyEntry <$> history))))]
  ++ fileParts 0 files
  ++ [("file_count", FormData.Text (pretty (length files)))].
Proof.
  unfold chatFormData, FormData.append. rewrite forEach_appendFile.
  simpl. by rewrite <- ?app_assoc.
Qed.

Lemma uploadFormData_parts sessionId files textContext :
  uploadFormData sessionId files textContext =
  [("message", FormData.Text (default "" textContext));
   ("chatInput", FormData.Text (default "" textContext));
   ("sessionId", FormData.Text sessionId)]
  ++ fileParts 0 files
  ++ [("file_count", FormData.Text (pretty (length files)))].
Proof.
  unfold uploadFormData, FormData.append. rewrite forEach_appendFile.
  simpl. by rewrite <- ?app_assoc.
Qed.

(** Decimal numerals start with a digit, so a file key is none of the
    fixed part names. *)
Lemma pretty_N_char_digit x : digitChar (pretty_N_char x).
Proof. unfold pretty_N_char, digitChar. repeat case_match; vm_compute; lia. Qed.

Lemma pretty_N_go_head x s :
  (0 < x)%N → ∃ c s', pretty_N_go x s = String c s' ∧ digitChar c.
Proof.
  revert s. induction (N.lt_wf_0 x) as [x _ IH]; intros s Hx.
  rewrite pretty_N_go_step by done.
  destruct (decide (x `div` 10 = 0)%N) as [->|Hne].
  - rewrite pretty_N_go_0. eauto using pretty_N_char_digit.
  - apply IH; [apply N.div_lt; lia|]. by apply N.neq_0_lt_0.
Qed.

Lemma pretty_nat_head (n : nat) : ∃ c s, pretty n = String c s ∧ digitChar c.
Proof.
  unfold pretty, pretty_nat, pretty, pretty_N.
  case_decide.
  - exists "0"%char, "". split; [done|]. vm_compute. lia.
  - apply pretty_N_go_head. lia.
Qed.

Lemma fileKey_inj : Inj (=) (=) fileKey.
Proof.
  intros i j Heq. unfold fileKey in Heq.
  by apply (inj pretty), (inj (String.append "file_")).
Qed.

Lemma fileKey_not_fixed index :
  fileKey index ≠ "file_metadata" ∧ fileKey index ≠ "file_count".
Proof.
  destruct (pretty_nat_head index) as (c & s & Hp & Hc).
  unfold fileKey. rewrite Hp. unfold digitChar in Hc.
  split; intros Heq.
  - assert (String c s = "metadata") as [= -> _]
      by (apply (inj (String.append "file_")); exact Heq).
    vm_compute in Hc. lia.
  - assert (String c s = "count") as [= -> _]
      by (apply (inj (String.append "file_")); exact Heq).
    vm_compute in Hc. lia.
Qed.

Lemma binaryParts_fileParts index files :
  binaryParts (fileParts index files)
  = zip (fileKey <$> seq index (length files)) files.
Proof.
  revert index. induction files as [|file rest IH]; intros index; [done|].
  simpl. unfold binaryParts in *. simpl. by rewrite IH.
Qed.

Lemma getAll_metadata_fileParts index files :
  FormData.getAll "file_metadata" (fileParts index files)
  = imap (λ j file, FormData.Text (JSON_stringify (metadata file (index + j)))) files.
Proof.
  revert index. induction files as [|file rest IH]; intros index; [done|].
  unfold FormData.getAll in *. cbn [fileParts].
  rewrite filter_cons_False by (simpl; apply fileKey_not_fixed).
  rewrite filter_cons_True by done.
  rewrite fmap_cons, IH. cbn [imap snd]. rewrite Nat.add_0_r. f_equal.
  apply imap_ext. intros j file' _. simpl. by rewrite Nat.add_succ_r.
Qed.

Lemma getAll_other_fileParts name index files :
  (∀ i, fileKey i ≠ name) → name ≠ "file_metadata" →
  FormData.getAll name (fileParts index files) = [].
Proof.
  intros Hkey Hmeta.
  revert index. induction files as [|file rest IH]; intros index; [done|].
  unfold FormData.getAll in *. cbn [fileParts].
  rewrite filter_cons_False by (simpl; apply Hkey).
  rewrite filter_cons_False by (simpl; congruence). apply IH.
Qed.

Lemma getAll_count_fileParts index files :
  FormData.getAll "file_count" (fileParts index files) = [].
Proof. apply getAll_other_fileParts; [apply fileKey_not_fixed|done]. Qed.

Lemma getAll_sessionId_fileParts index files :
  FormData.getAll "sessionId" (fileParts index files) = [].
Proof.
  apply getAll_other_fileParts; [|done].
  intros i Heq. cbv [fileKey String.append] in Heq. discriminate.
Qed.

Lemma getAll_sessionId_chat sessionId message history files :
  FormData.getAll "sessionId" (chatFormData sessionId message history files)
  = [FormData.Text sessionId].
Proof.
  rewrite chatFormData_parts. unfold FormData.getAll.
  rewrite !filter_app, !fmap_app.
  fold (FormData.getAll "sessionId" (fileParts 0 files)).
  by rewrite getAll_sessionId_fileParts.
Qed.

Lemma getAll_sessionId_upload sessionId files textContext :
  FormData.getAll "sessionId" (uploadFormData sessionId files textContext)
  = [FormData.Text sessionId].
Proof.
  rewrite uploadFormData_parts. unfold FormData.getAll.
  rewrite !filter_app, !fmap_app.
  fold (FormData.getAll "sessionId" (fileParts 0 files)).
  by rewrite getAll_sessionId_fileParts.
Qed.

End Body.

Section BodyClaims.
Context `{Host}.

Lemma metadataObjects_keys index files :
  (λ m, get m "key") <$> imap (λ j file, metadata file (index + j)) files
  = (λ k, Ok (VStr k)) <$> (fileKey <$> seq index (length files)).
Proof.
  revert index. induction files as [|file rest IH]; intros index; [done|].
  cbn [imap length seq]. rewrite !fmap_cons, Nat.add_0_r. f_equal.
  rewrite <- IH. f_equal. apply imap_ext. intros j file' _. simpl.
  by rewrite Nat.add_succ_r.
Qed.

Lemma carriesFiles_around (before : FormData.t) files :
  binaryParts before = [] →
  FormData.getAll "file_metadata" before = [] →
  FormData.getAll "file_count" before = [] →
  carriesFiles files
    (before ++ fileParts 0 files
     ++ [("file_count", FormData.Text (pretty (length files)))]).
Proof.
  intros Hbin Hmeta Hcount.
  assert (binaryParts (before ++ fileParts 0 files
            ++ [("file_count", FormData.Text (pretty (length files)))])
          = zip (fileKey <$> seq 0 (length files)) files) as Hparts.
  { unfold binaryParts in *. rewrite !omap_app, Hbin.
    fold (binaryParts (fileParts 0 files)). rewrite binaryParts_fileParts.
    simpl. by rewrite app_nil_r. }
  assert (FormData.getAll "file_metadata" (before ++ fileParts 0 files
            ++ [("file_count", FormData.Text (pretty (length files)))])
          = (λ m, FormData.Text (JSON_stringify m)) <$> metadataObjects files) as Hmetas.
  { unfold FormData.getAll in *. rewrite !filter_app, !fmap_app, Hmeta.
    fold (FormData.getAll "file_metadata" (fileParts 0 files)).
    rewrite getAll_metadata_fileParts. rewrite filter_cons_False by done.
    rewrite filter_nil. simpl. rewrite app_nil_r.
    unfold metadataObjects. by rewrite fmap_imap. }
  unfold carriesFiles. rewrite Hparts, Hmetas.
  assert (length (fileKey <$> seq 0 (length files)) = length files) as Hlen
    by by rewrite length_fmap, length_seq.
  split_and!.
  - apply snd_zip. lia.
  - rewrite length_zip. lia.
  - rewrite fst_zip by lia. done.
  - rewrite fst_zip by lia. apply (NoDup_fmap_2 _), NoDup_seq.
  - done.
  - unfold metadataObjects. by rewrite length_fmap, length_imap.
  - rewrite fst_zip by lia. apply (metadataObjects_keys 0).
  - unfold FormData.getAll in *. rewrite !filter_app, !fmap_app, Hcount.
    fold (FormData.getAll "file_count" (fileParts 0 files)).
    rewrite getAll_count_fileParts. rewrite filter_cons_True by done.
    by rewrite filter_nil.
Qed.

(** C3.  For every list of N files (none included), the body built by
    [sendChatMessage] and the body built by [uploadFilesToWebhook] each hold
    exactly N binary parts, one per file in selection order, under pairwise
    distinct names; exactly N parts named [file_metadata], the serialized
    metadata of the files in the same order, whose [key] fields are, rank
    by rank, the names of the binary parts; and one [file_count] part whose
    value is N. *)
Theorem multipart_carries_files sessionId message history textContext files :
  carriesFiles files (chatFormData sessionId message history files)
  ∧ carriesFiles files (uploadFormData sessionId files textContext).
Proof.
  rewrite chatFormData_parts, uploadFormData_parts.
  split; by apply carriesFiles_around.
Qed.

(** C2, as the code has it.  For every attached file, of rank [index] in
    the list, the part of that rank among those named [file_metadata] is the
    JSON serialization of an object with exactly the fields [name], [type],
    [size] and [key], in this order: the file's name, MIME type and size,
    and the name of the binary part of that rank, which carries the file. *)
Theorem metadata_part_fields sessionId message history textContext files index file :
  files !! index = Some file →
  let part :=
    FormData.Text (JSON_stringify
      (VObj [("name", VStr (File.name file));
             ("type", VStr (File.type file));
             ("size", VNum (File.size file));
             ("key", VStr (fileKey index))])) in
  let chat := chatFormData sessionId message history files in
  let upload := uploadFormData sessionId files textContext in
  (binaryParts chat !! index = Some (fileKey index, file)
   ∧ FormData.getAll "file_metadata" chat !! index = Some part)
  ∧ (binaryParts upload !! index = Some (fileKey index, file)
     ∧ FormData.getAll "file_metadata" upload !! index = Some part).
Proof.
  intros Hfile part chat upload.
  assert (∀ body, carriesFiles files body →
            binaryParts body !! index = Some (fileKey index, file)
            ∧ FormData.getAll "file_metadata" body !! index = Some part) as Hbody.
  { intros body (Hfiles & Hlen & Hkeys & _ & Hmetas & _).
    assert ((binaryParts body).*1 !! index = Some (fileKey index)) as Hkey.
    { rewrite Hkeys, list_lookup_fmap, lookup_seq_lt; [done|].
      by eapply lookup_lt_Some. }
    split.
    - rewrite list_lookup_fmap in Hkey.
      assert ((binaryParts body).*2 !! index = Some file) as Hf by by rewrite Hfiles.
      rewrite list_lookup_fmap in Hf.
      destruct (binaryParts body !! index) as [[k f]|]; simplify_eq/=. done.
    - rewrite Hmetas. unfold metadataObjects.
      rewrite list_lookup_fmap, list_lookup_imap, Hfile. done. }
  split; apply Hbody.
  - unfold chat. rewrite chatFormData_parts. by apply carriesFiles_around.
  - unfold upload. rewrite uploadFormData_parts. by apply carriesFiles_around.
Qed.

(** Whatever the answer, a call with the URL set leaves exactly one more
    request behind. *)
Lemma sent_after_chat url message history files w :
  ToBoolean url = true →
  sent (sendChatMessage url message history files w).2
  = sent w ++ [chatRequest url message history files w].
Proof.
  intros Hurl. rewrite sendChatMessage_run by done. cbv zeta.
  destruct (network w _) as [e|response]; [done|].
  destruct (ok response); [|done]. by destruct (body response).
Qed.

Lemma sent_after_upload url files textContext w :
  ToBoolean url = true →
  sent (uploadFilesToWebhook url files textContext w).2
  = sent w ++ [uploadRequest url files textContext w].
Proof.
  intros Hurl. rewrite uploadFilesToWebhook_run by done. cbv zeta.
  destruct (network w _) as [e|response]; [done|].
  by destruct (ok response).
Qed.

(** C5.  With a falsy URL (the empty string, [undefined]) each of the two
    functions throws its configuration error at once and leaves the world as
    it was: no request, no reading of the clock, no console output.  With
    any other URL each sends exactly one request, a POST to that URL. *)
Theorem unset_url_fails_else_one_post url message history files textContext w :
  (ToBoolean url = false →
     sendChatMessage url message history files w
     = (Throw (JsError "Chat Webhook URL is not configured."), w)
     ∧ uploadFilesToWebhook url files textContext w
       = (Throw (JsError "Ingestion Webhook URL is not configured."), w))
  ∧ (ToBoolean url = true →
     ∃ chat upload,
       sent (sendChatMessage url message history files w).2 = sent w ++ [chat]
       ∧ sent (uploadFilesToWebhook url files textContext w).2 = sent w ++ [upload]
       ∧ chat = chatRequest url message history files w
       ∧ upload = uploadRequest url files textContext w
       ∧ req_method chat = "POST" ∧ req_url chat = url
       ∧ req_method upload = "POST" ∧ req_url upload = url).
Proof.
  split; intros Hurl.
  - by rewrite sendChatMessage_unset, uploadFilesToWebhook_unset.
  - eexists _, _. rewrite sent_after_chat, sent_after_upload by done.
    by split_and!.
Qed.

(** The session identifier parts of a request. *)
Lemma sessionId_of_requests url message history files textContext w :
  FormData.getAll "sessionId" (req_body (chatRequest url message history files w))
  = [FormData.Text ("session-" +:+ Date.toDateString (now w))]
  ∧ FormData.getAll "sessionId" (req_body (uploadRequest url files textContext w))
    = [FormData.Text ("ingestion-" +:+ Date.toDateString (now w))].
Proof. split; [apply getAll_sessionId_chat|apply getAll_sessionId_upload]. Qed.

(** C6.  Two calls of the same function whose readings of the clock fall on
    the same local calendar day send the same session identifier, whatever
    else differs between them; and on every day the identifier of an
    ingestion call differs from that of a chat call. *)
Theorem session_id_fixed_by_day
    url1 message1 history1 files1 textContext1 w1
    url2 message2 history2 files2 textContext2 w2 :
  ToBoolean url1 = true → ToBoolean url2 = true →
  Date.localDay (now w1) = Date.localDay (now w2) →
  ∃ chatId ingestionId : string,
    FormData.getAll "sessionId" ∘ req_body
      <$> last (sent (sendChatMessage url1 message1 history1 files1 w1).2)
    = Some [FormData.Text chatId]
    ∧ FormData.getAll "sessionId" ∘ req_body
        <$> last (sent (sendChatMessage url2 message2 history2 files2 w2).2)
      = Some [FormData.Text chatId]
    ∧ FormData.getAll "sessionId" ∘ req_body
        <$> last (sent (uploadFilesToWebhook url1 files1 textContext1 w1).2)
      = Some [FormData.Text ingestionId]
    ∧ FormData.getAll "sessionId" ∘ req_body
        <$> last (sent (uploadFilesToWebhook url2 files2 textContext2 w2).2)
      = Some [FormData.Text ingestionId]
    ∧ chatId ≠ ingestionId.
Proof.
  intros Hurl1 Hurl2 Hday.
  exists ("session-" +:+ Date.toDateString (now w1)),
         ("ingestion-" +:+ Date.toDateString (now w1)).
  rewrite !sent_after_chat, !sent_after_upload by done.
  rewrite !last_snoc. cbn [fmap option_fmap option_map compose].
  destruct (sessionId_of_requests url1 message1 history1 files1 textContext1 w1) as [-> ->].
  destruct (sessionId_of_requests url2 message2 history2 files2 textContext2 w2) as [-> ->].
  unfold Date.toDateString. rewrite Hday.
  by split_and!.
Qed.

End BodyClaims.

(** ** Response normalization *)

Section Normalization.
Context `{Host}.

Lemma get_not_nullish data k :
  nullish data = false →
  get data k = Ok (match data with
                   | VObj props => default VUndefined (own_property k props)
                   | _ => VUndefined
                   end).
Proof. by destruct data. Qed.

Lemma get_nullish data k : nullish data = true → ∃ e, get data k = Throw e.
Proof. destruct data; naive_solver. Qed.

Lemma or_else_firstTruthy data k rest (fallback : value) :
  nullish data = false →
  or_else (get data k) (Ok (default fallback (firstTruthy rest data)))
  = Ok (default fallback (firstTruthy (k :: rest) data)).
Proof.
  intros Hdata. cbn [firstTruthy]. rewrite (get_not_nullish _ _ Hdata).
  unfold or_else, rbind. by case_match.
Qed.

(** The chains of [||] select the first truthy candidate. *)
Lemma errorFields_firstTruthy errorJson :
  nullish errorJson = false →
  errorFields errorJson
  = Ok (default (VStr (JSON_stringify errorJson))
          (firstTruthy ["errorMessage"; "message"] errorJson)).
Proof.
  intros Hdata. unfold errorFields.
  by rewrite <- !or_else_firstTruthy.
Qed.

Lemma replyFields_firstTruthy data :
  nullish data = false →
  replyFields data
  = Ok (default (if is_string data then data else VStr (JSON_stringify data))
          (firstTruthy ["output"; "text"; "message"] data)).
Proof.
  intros Hdata. unfold replyFields.
  by rewrite <- !or_else_firstTruthy.
Qed.

Lemma errorFields_nullish errorJson :
  nullish errorJson = true → ∃ e, errorFields errorJson = Throw e.
Proof.
  intros Hdata. unfold errorFields, or_else.
  destruct (get_nullish errorJson "errorMessage" Hdata) as [e ->]. by exists e.
Qed.

Lemma replyFields_nullish data :
  nullish data = true → ∃ e, replyFields data = Throw e.
Proof.
  intros Hdata. unfold replyFields, or_else.
  destruct (get_nullish data "output" Hdata) as [e ->]. by exists e.
Qed.

(** A field selected by an [||] chain is truthy. *)
Lemma firstTruthy_Some_truthy keys data v :
  firstTruthy keys data = Some v → ToBoolean v = true.
Proof.
  induction keys as [|k rest IH]; [done|]. cbn [firstTruthy].
  destruct (get data k) as [x|]; [|done].
  destruct (ToBoolean x) eqn:Hx; [|done]. by intros [= <-].
Qed.

(** C1, as the code has it.  On a non-success status both functions throw
    the same error.  Its message is the status text when the body cannot be
    read, is not JSON, or is the JSON [null].  Otherwise it comes from the
    first truthy field among [errorMessage], [message]: the field itself
    when it is a string, its string conversion when it is not; and when
    that conversion throws (the field is an object with a [toString]
    property of its own, or an array that holds one), what is thrown is the
    [TypeError] of the conversion, in place of an error with a message.
    When neither field is truthy, the message is the JSON serialization of
    the parsed body. *)
Theorem nonsuccess_error_message url message history files textContext w response :
  ToBoolean url = true →
  network w (sent w ++ [chatRequest url message history files w]) = Fulfilled response →
  network w (sent w ++ [uploadRequest url files textContext w]) = Fulfilled response →
  ok response = false →
  ∃ e,
    (sendChatMessage url message history files w).1 = Throw e
    ∧ (uploadFilesToWebhook url files textContext w).1 = Throw e
    ∧ match body response with
      | Throw _ => e = JsError (statusText response)
      | Ok errorText =>
          match JSON_parse errorText with
          | Throw _ => e = JsError (statusText response)
          | Ok errorJson =>
              if nullish errorJson then e = JsError (statusText response)
              else
                match firstTruthy ["errorMessage"; "message"] errorJson with
                | Some (VStr s) => e = JsError s
                | Some field =>
                    match ToString field with
                    | Ok converted => e = JsError converted
                    | Throw conversionError => e = conversionError
                    end
                | None => e = JsError (JSON_stringify errorJson)
                end
          end
      end.
Proof.
  intros Hurl Hchat Hupload Hok. exists (errorOf response).
  rewrite sendChatMessage_run, uploadFilesToWebhook_run by done. cbv zeta.
  rewrite Hchat, Hupload, Hok. split_and!; [done..|].
  unfold errorOf, errorDescOf.
  destruct (body response) as [errorText|?]; [|done]. cbn [rbind].
  destruct (JSON_parse errorText) as [errorJson|?]; [|done]. cbn [rbind].
  destruct (nullish errorJson) eqn:Hnull.
  - by destruct (errorFields_nullish _ Hnull) as [? ->].
  - rewrite (errorFields_firstTruthy _ Hnull).
    destruct (firstTruthy _ errorJson) as [field|] eqn:Hfield; [|done].
    apply firstTruthy_Some_truthy in Hfield.
    cbn [default from_option id].
    destruct field; try done; unfold new_Error; by destruct (ToString _).
Qed.

(** C4, as the code has it.  On a success status, once the body text is
    read, [sendChatMessage] returns and does not throw.  It returns the raw
    text when the text is not JSON (or is the JSON [null]); otherwise the
    first field among [output], [text], [message] that holds a truthy value;
    and when there is none, the parsed value itself if it is a string, its
    JSON serialization if it is not. *)
Theorem success_reply url message history files w response responseText :
  ToBoolean url = true →
  network w (sent w ++ [chatRequest url message history files w]) = Fulfilled response →
  ok response = true →
  body response = Ok responseText →
  ∃ v,
    (sendChatMessage url message history files w).1 = Ok v
    ∧ match JSON_parse responseText with
      | Throw _ => v = VStr responseText
      | Ok data =>
          if nullish data then v = VStr responseText
          else
            match firstTruthy ["output"; "text"; "message"] data with
            | Some field => v = field
            | None => v = if is_string data then data else VStr (JSON_stringify data)
            end
      end.
Proof.
  intros Hurl Hchat Hok Hbody. exists (replyOf responseText).
  rewrite sendChatMessage_run by done. cbv zeta.
  rewrite Hchat, Hok, Hbody. split; [done|].
  unfold replyOf.
  destruct (JSON_parse responseText) as [data|?]; [|done]. cbn [rbind].
  destruct (nullish data) eqn:Hnull.
  - by destruct (replyFields_nullish _ Hnull) as [? ->].
  - rewrite (replyFields_firstTruthy _ Hnull).
    by destruct (firstTruthy _ data).
Qed.

Lemma own_property_without k k' props :
  own_property k' (withoutProperty k props)
  = if decide (k' = k) then None else own_property k' props.
Proof.
  unfold withoutProperty.
  induction props as [|[k0 v0] rest IH]; [by case_decide|].
  rewrite filter_cons. cbn [fst own_property].
  destruct (decide (k0 ≠ k)) as [Hne|Heq%dec_stable].
  - cbn [own_property]. rewrite IH.
    destruct (String.eqb_spec k' k0) as [->|]; [|done]. by rewrite decide_False.
  - subst k0. rewrite IH. case_decide as Hk; [done|].
    by apply String.eqb_neq in Hk as ->.
Qed.

(** A candidate that holds a falsy value weighs as much in the selection
    as a candidate that is not there. *)
Lemma firstTruthy_without keys k v props :
  own_property k props = Some v → ToBoolean v = false →
  firstTruthy keys (VObj props) = firstTruthy keys (VObj (withoutProperty k props)).
Proof.
  intros Hk Hv. induction keys as [|k' rest IH]; [done|].
  cbn [firstTruthy get]. rewrite own_property_without, IH.
  case_decide as Heq; [|done]. subst k'. rewrite Hk. simpl.
  by rewrite Hv.
Qed.

End Normalization.

(** C10.  In an object, a candidate field that holds a falsy value counts
    as absent when the reply or the error message is selected: the
    selection is the one made on the object without that field, and when it
    finds nothing the whole object is serialized, the falsy field included.
    So a 200 response with body [{"output":""}] yields the text
    [{"output":""}], not the empty string. *)
Theorem falsy_candidate_is_absent `{Host} (props : list (string * value)) k v :
  own_property k props = Some v → ToBoolean v = false →
  replyFields (VObj props)
  = Ok (default (VStr (JSON_stringify (VObj props)))
          (firstTruthy ["output"; "text"; "message"] (VObj (withoutProperty k props))))
  ∧ errorFields (VObj props)
    = Ok (default (VStr (JSON_stringify (VObj props)))
            (firstTruthy ["errorMessage"; "message"] (VObj (withoutProperty k props))))
  ∧ (Runs.chat (Examples.respond 200 "OK" "{'output':''}")).1
    = Ok (VStr (jsonText "{'output':''}"))
  ∧ (Runs.chat (Examples.respond 500 "Internal Server Error" "{'errorMessage':'','message':0}")).1
    = Throw (JsError (jsonText "{'errorMessage':'','message':0}")).
Proof.
  intros Hk Hv. split_and!.
  - rewrite replyFields_firstTruthy by done.
    by rewrite (firstTruthy_without _ k v).
  - rewrite errorFields_firstTruthy by done.
    by rewrite (firstTruthy_without _ k v).
  - vm_compute. reflexivity.
  - vm_compute. reflexivity.
Qed.

(** ** The conversation *)

Section Conversation.
Context `{Host}.
Local Open Scope io_scope.

Lemma append_cons a s t : String a s +:+ t = String a (s +:+ t).
Proof. reflexivity. Qed.

Lemma append_assoc s t u : (s +:+ t) +:+ u = s +:+ t +:+ u.
Proof. induction s as [|a s IH]; [done|]. by rewrite !append_cons, IH. Qed.

Lemma prefix_spec p s : String.prefix p s = true ↔ ∃ t, s = p +:+ t.
Proof.
  revert s. induction p as [|a p IH]; intros s.
  - split; [intros _; by exists s|by destruct s].
  - destruct s as [|b s]; cbn [String.prefix].
    + split; [done|]. intros [t Ht]. by rewrite append_cons in Ht.
    + destruct (Ascii.ascii_dec a b) as [->|Hne].
      * rewrite IH. split; intros [t Ht]; exists t.
        -- by rewrite append_cons, Ht.
        -- rewrite append_cons in Ht. congruence.
      * split; [done|]. intros [t Ht]. rewrite append_cons in Ht. congruence.
Qed.

(** [includes] finds the needle exactly when the text is something, the
    needle, and something more. *)
Lemma includes_spec needle hay :
  includes needle hay = true ↔ ∃ before after, hay = before +:+ needle +:+ after.
Proof.
  induction hay as [|c hay IH]; cbn [includes].
  - rewrite orb_false_r, prefix_spec. split.
    + intros [t Ht]. by exists "", t.
    + intros (before & after & Heq). destruct before; [by exists after|].
      by rewrite append_cons in Heq.
  - rewrite orb_true_iff, prefix_spec, IH. split.
    + intros [[t Ht]|(before & after & Ht)].
      * by exists "", t.
      * exists (String c before), after. by rewrite append_cons, Ht.
    + intros (before & after & Heq). destruct before as [|b before].
      * left. by exists after.
      * right. exists before, after. rewrite append_cons in Heq. congruence.
Qed.

Lemma chatDisplayMsg_cases errorMessage :
  chatDisplayMsg errorMessage
  = if includes "Unused Respond to Webhook node" errorMessage
    then "Error: " +:+ errorMessage +:+ nl +:+ nl +:+ adviceMark +:+ " "
         +:+ "N8N CONFIG ERROR: Open your N8N Webhook Node and change 'Respond' to 'Using Respond to Webhook Node'."
    else "Error: " +:+ errorMessage.
Proof.
  unfold chatDisplayMsg, getN8nErrorAdvice.
  destruct (includes _ errorMessage); [|done].
  by rewrite append_assoc.
Qed.

(** C7, as the code has it.  Whatever the conversation, when the send
    (made after the two readings of the clock that stamp the user message)
    fails, whether before the request, in the network, or with a non-success
    answer, the handler ends with the conversation it started from followed
    by exactly two messages: the user message as it was first appended, and
    one assistant message flagged as an error.  The content of the latter is
    [Error: ] followed by the error text, followed, when that text contains
    [Unused Respond to Webhook node], by a blank line, the advice mark and
    the advice. *)
Theorem failed_turn_appends_error_message st text attachments w e w' :
  sendChatMessage (WebhookConfig.chatUrl (config st)) text (messages st) attachments
    (tick (tick w)) = (Throw e, w') →
  ∃ st' userMsg errorMsg,
    (handleSendMessage text attachments st w).1 = Ok st'
    ∧ messages st' = messages st ++ [userMsg; errorMsg]
    ∧ userMsg = {| ChatMessage.id := pretty (now w);
                   ChatMessage.role := USER;
                   ChatMessage.content := VStr text;
                   ChatMessage.timestamp := now (tick w);
                   ChatMessage.isError := None;
                   ChatMessage.attachments := Some (attachmentOf <$> attachments) |}
    ∧ ChatMessage.role errorMsg = ASSISTANT
    ∧ ChatMessage.isError errorMsg = Some true
    ∧ ChatMessage.content errorMsg
      = VStr (if includes "Unused Respond to Webhook node" (errorMessageOf e)
              then "Error: " +:+ errorMessageOf e +:+ nl +:+ nl +:+ adviceMark +:+ " "
                   +:+ "N8N CONFIG ERROR: Open your N8N Webhook Node and change 'Respond' to 'Using Respond to Webhook Node'."
              else "Error: " +:+ errorMessageOf e)
    ∧ isChatLoading st' = false.
Proof.
  intros Hsend. unfold handleSendMessage.
  unfold bind at 1, Date_now at 1. unfold bind at 1, Date_now at 1.
  unfold bind at 1, try_catch. unfold bind at 1. rewrite Hsend.
  unfold bind, console_error, Date_now, ret. cbn [fst].
  eexists _, _, _. split_and!; [done| | | | | |].
  - cbn [messages setIsChatLoading setMessages]. by rewrite <- app_assoc.
  - done.
  - done.
  - done.
  - cbn [ChatMessage.content]. by rewrite chatDisplayMsg_cases.
  - done.
Qed.

End Conversation.

(** ** The stored configuration *)

Section Configuration.
Context `{Host}.

Lemma firstTruthy_truthy keys data v :
  firstTruthy keys data = Some v → ToBoolean v = true.
Proof.
  induction keys as [|k rest IH]; [done|]. cbn [firstTruthy].
  destruct (get data k) as [x|]; [|done].
  destruct (ToBoolean x) eqn:Hx; [|done]. by intros [= <-].
Qed.

Lemma configOfParsed_fields parsed :
  nullish parsed = false →
  configOfParsed parsed
  = Ok {| WebhookConfig.ingestionUrl :=
            default (WebhookConfig.ingestionUrl DEFAULT_CONFIG)
              (firstTruthy ["ingestionUrl"] parsed);
          WebhookConfig.chatUrl :=
            default (WebhookConfig.chatUrl DEFAULT_CONFIG)
              (firstTruthy ["chatUrl"] parsed) |}.
Proof.
  intros Hparsed. unfold configOfParsed.
  change (Ok (A := value) (WebhookConfig.ingestionUrl DEFAULT_CONFIG))
    with (Ok (A := value) (default (WebhookConfig.ingestionUrl DEFAULT_CONFIG)
                             (firstTruthy [] parsed))).
  change (Ok (A := value) (WebhookConfig.chatUrl DEFAULT_CONFIG))
    with (Ok (A := value) (default (WebhookConfig.chatUrl DEFAULT_CONFIG)
                             (firstTruthy [] parsed))).
  by rewrite !or_else_firstTruthy.
Qed.

Lemma configOfParsed_nullish parsed :
  nullish parsed = true → ∃ e, configOfParsed parsed = Throw e.
Proof.
  intros Hparsed. unfold configOfParsed, or_else.
  destruct (get_nullish parsed "ingestionUrl" Hparsed) as [e ->]. by exists e.
Qed.

Lemma default_firstTruthy_truthy (d : value) keys data :
  ToBoolean d = true → ToBoolean (default d (firstTruthy keys data)) = true.
Proof.
  intros Hd. destruct (firstTruthy keys data) as [v|] eqn:Hv; [|done].
  by apply firstTruthy_truthy in Hv.
Qed.

Lemma firstTruthy_missing_or_empty k (props : list (string * value)) :
  own_property k props = None ∨ own_property k props = Some (VStr "") →
  firstTruthy [k] (VObj props) = None.
Proof. intros [Hk|Hk]; cbn [firstTruthy get]; by rewrite Hk. Qed.

(** C9.  Whatever the store holds under the configuration key, the loader
    of [App], run on the freshly mounted component, and the loader of the
    settings dialog both return, without throwing, the same configuration.
    Neither of its URLs is empty (or otherwise falsy).  It is the default
    configuration when nothing is stored, when the stored text is empty or
    not JSON, and when it is the JSON [null]; otherwise each URL is the
    stored one when that is truthy and the default one when the field is
    missing, empty or otherwise falsy.  The two default URLs are not
    empty. *)
Theorem load_config_falls_back_to_defaults w :
  ∃ c w',
    loadConfig initialState w = (Ok (setConfig c initialState), w')
    ∧ SettingsModal_load w = c
    ∧ ToBoolean (WebhookConfig.ingestionUrl c) = true
    ∧ ToBoolean (WebhookConfig.chatUrl c) = true
    ∧ match storedDocument w with
      | None => c = DEFAULT_CONFIG
      | Some parsed =>
          WebhookConfig.ingestionUrl c
          = default (WebhookConfig.ingestionUrl DEFAULT_CONFIG)
              (firstTruthy ["ingestionUrl"] parsed)
          ∧ WebhookConfig.chatUrl c
            = default (WebhookConfig.chatUrl DEFAULT_CONFIG)
                (firstTruthy ["chatUrl"] parsed)
      end
    ∧ (∀ props, storedDocument w = Some (VObj props) →
         (own_property "ingestionUrl" props = None
          ∨ own_property "ingestionUrl" props = Some (VStr "") →
          WebhookConfig.ingestionUrl c = WebhookConfig.ingestionUrl DEFAULT_CONFIG)
         ∧ (own_property "chatUrl" props = None
            ∨ own_property "chatUrl" props = Some (VStr "") →
            WebhookConfig.chatUrl c = WebhookConfig.chatUrl DEFAULT_CONFIG))
    ∧ (∃ i u, DEFAULT_CONFIG = {| WebhookConfig.ingestionUrl := VStr i;
                                  WebhookConfig.chatUrl := VStr u |}
              ∧ i ≠ "" ∧ u ≠ "").
Proof.
  assert (∃ i u, DEFAULT_CONFIG = {| WebhookConfig.ingestionUrl := VStr i;
                                     WebhookConfig.chatUrl := VStr u |}
                 ∧ i ≠ "" ∧ u ≠ "") as Hdefault
    by (eexists _, _; split_and!; [reflexivity|done..]).
  unfold loadConfig, SettingsModal_load, storedDocument.
  destruct (storedText LOCAL_STORAGE_CONFIG_KEY w) as [stored|].
  2: { exists DEFAULT_CONFIG, w. split_and!; done. }
  unfold try_catch, bind, lift, ret, console_error.
  destruct (JSON_parse stored) as [parsed|e]; cbn [rbind].
  2: { exists DEFAULT_CONFIG, (logError "Error parsing config" e w).
       split_and!; done. }
  destruct (nullish parsed) eqn:Hparsed.
  - destruct (configOfParsed_nullish _ Hparsed) as [e ->].
    exists DEFAULT_CONFIG, (logError "Error parsing config" e w).
    split_and!; done.
  - rewrite (configOfParsed_fields _ Hparsed).
    eexists _, w. split_and!; [done|done| | |done|done| |done].
    + by apply default_firstTruthy_truthy.
    + by apply default_firstTruthy_truthy.
    + intros props [= ->]. cbn [WebhookConfig.ingestionUrl WebhookConfig.chatUrl].
      split; intros Hk; by rewrite firstTruthy_missing_or_empty.
Qed.

End Configuration.

(** ** The upload queue *)

Section Queue.
Context `{Host}.

Lemma find_after {A} (f : A → bool) before x after :
  (∀ y, y ∈ before → f y = false) → f x = true →
  List.find f (before ++ x :: after) = Some x.
Proof.
  intros Hbefore Hx. induction before as [|y before IH]; simpl.
  - by rewrite Hx.
  - rewrite Hbefore by left. apply IH. intros z Hz. apply Hbefore. by right.
Qed.

Lemma filter_keeps {A} (f : A → bool) l :
  (∀ y, y ∈ l → f y = true) → List.filter f l = l.
Proof.
  intros Hl. induction l as [|y l IH]; [done|]. simpl.
  rewrite Hl by left. f_equal. apply IH. intros z Hz. apply Hl. by right.
Qed.

Lemma filter_drops_one {A} (f : A → bool) before x after :
  (∀ y, y ∈ before → f y = true) → f x = false → (∀ y, y ∈ after → f y = true) →
  List.filter f (before ++ x :: after) = before ++ after.
Proof.
  intros Hbefore Hx Hafter. rewrite List.filter_app. simpl. rewrite Hx.
  by rewrite !filter_keeps.
Qed.

(** With identifiers that tell the items apart, [handleRemove] finds the
    item it is asked for, and removes it and nothing else. *)
Lemma handleRemove_unique before item after w :
  NoDup (FileUploadItem.id <$> before ++ item :: after) →
  handleRemove (FileUploadItem.id item) (before ++ item :: after) w
  = (before ++ after,
     match FileUploadItem.previewUrl item with
     | Some url => if String.eqb url "" then w else revokeObjectURL url w
     | None => w
     end).
Proof.
  rewrite fmap_app, fmap_cons. intros Hnodup.
  apply NoDup_app in Hnodup as (_ & Hbefore & [Hafter _]%NoDup_cons).
  unfold handleRemove.
  rewrite find_after; first last.
  { apply String.eqb_refl. }
  { intros y Hy. apply String.eqb_neq. intros Heq.
    apply (Hbefore (FileUploadItem.id y)); [by apply list_elem_of_fmap_2|].
    rewrite Heq. left. }
  rewrite filter_drops_one; first last.
  { intros y Hy. apply negb_true_iff, String.eqb_neq. intros Heq.
    apply Hafter. rewrite <- Heq. by apply list_elem_of_fmap_2. }
  { by rewrite String.eqb_refl. }
  { intros y Hy. apply negb_true_iff, String.eqb_neq. intros Heq.
    apply (Hbefore (FileUploadItem.id y)); [by apply list_elem_of_fmap_2|].
    rewrite Heq. left. }
  f_equal. destruct (FileUploadItem.previewUrl item) as [url|]; [|done].
  by destruct (String.eqb url "").
Qed.

(** C8.  In a queue whose items have distinct identifiers, an item has a
    remove button exactly while it is pending.  A request to remove an item
    in any other state changes neither the queue nor the world.  A request
    to remove a pending item deletes that item, leaves every other item
    where and as it was, and, when the item has a (non-empty) preview URL,
    revokes that URL once: the list of revoked URLs grows by exactly that
    one entry. *)
Theorem remove_only_while_pending (queue : list FileUploadItem.t) item w :
  item ∈ queue →
  NoDup (FileUploadItem.id <$> queue) →
  (is_Some (removeButton item)
   ↔ FileUploadItem.status item = FileUploadItem.pending)
  ∧ (FileUploadItem.status item ≠ FileUploadItem.pending →
     requestRemove item queue w = (queue, w))
  ∧ (FileUploadItem.status item = FileUploadItem.pending →
     ∃ before after,
       queue = before ++ item :: after
       ∧ (requestRemove item queue w).1 = before ++ after
       ∧ ¬ item ∈ (requestRemove item queue w).1
       ∧ revoked (requestRemove item queue w).2
         = revoked w ++ (match FileUploadItem.previewUrl item with
                         | Some url => if String.eqb url "" then [] else [url]
                         | None => []
                         end)).
Proof.
  intros Hin Hnodup. split_and!.
  - unfold removeButton. destruct (FileUploadItem.status item); split;
      (done || by intros []).
  - intros Hstatus. unfold requestRemove, removeButton.
    by destruct (FileUploadItem.status item).
  - intros Hstatus. unfold requestRemove, removeButton. rewrite Hstatus.
    apply list_elem_of_split in Hin as (before & after & ->).
    exists before, after. rewrite handleRemove_unique by done. cbn [fst snd].
    split_and!; [done..| |].
    + rewrite fmap_app, fmap_cons in Hnodup.
      apply NoDup_app in Hnodup as (_ & Hbefore & [Hafter _]%NoDup_cons).
      intros [Hb|Ha]%elem_of_app.
      * apply (Hbefore (FileUploadItem.id item)); [by apply list_elem_of_fmap_2|left].
      * apply Hafter. by apply list_elem_of_fmap_2.
    + destruct (FileUploadItem.previewUrl item) as [url|]; [|by rewrite app_nil_r].
      destruct (String.eqb url ""); [by rewrite app_nil_r|done].
Qed.

End Queue.

(** * Concrete runs on the small host *)

Section Concrete.
Import SmallHost Examples.

(** Dates, as [toDateString] prints them. *)
Example date_epoch : Date.toDateString 0 = "Thu Jan 01 1970".
Proof. vm_compute. reflexivity. Qed.

Example date_before_epoch : Date.toDateString (-1) = "Wed Dec 31 1969".
Proof. vm_compute. reflexivity. Qed.

Example date_leap_day : Date.toDateString 1709210096000 = "Thu Feb 29 2024".
Proof. vm_compute. reflexivity. Qed.

Example date_morning : Date.toDateString morning = "Tue Nov 03 2026".
Proof. vm_compute. reflexivity. Qed.

Example date_year_999 : Date.dateString (-354286) = "Tue Dec 31 0999".
Proof. vm_compute. reflexivity. Qed.

(** [JSON.parse] and [JSON.stringify] of the small host. *)
Example parse_object :
  JSON_parse (jsonText " { 'b' : [1, -2, {'c': null}, true, false, 'x\ny'], '2': 1, '1': 2, 'b': 3 } ")
  = Ok (VObj [("1", VNum 2%Z); ("2", VNum 1%Z); ("b", VNum 3%Z)]).
Proof. vm_compute. reflexivity. Qed.

Example parse_rejects :
  (λ text, match JSON_parse (jsonText text) with Ok _ => true | Throw _ => false end)
    <$> ["plain text"; "01"; "[1,]"; "{'a':1,}"; "tru"; "'ab"; ""; "{} x"]
  = [false; false; false; false; false; false; false; false].
Proof. vm_compute. reflexivity. Qed.

Example stringify_after_parse :
  (λ text, match JSON_parse (jsonText text) with
           | Ok v => JSON_stringify v
           | Throw _ => "SyntaxError"
           end)
    <$> [" [ 1 , [ ] , { } , null ] "; "{'a':{'b':[true,'c']}}"; "-0"; "'A\t'"]
  = jsonText <$> ["[1,[],{},null]"; "{'a':{'b':[true,'c']}}"; "0"; "'A\t'"].
Proof. vm_compute. reflexivity. Qed.

Example includes_examples :
  includes "Unused Respond to Webhook node"
    "Workflow error: Unused Respond to Webhook node found in the workflow" = true
  ∧ includes "Unused Respond to Webhook node" "bad node config" = false
  ∧ includes "" "" = true.
Proof. split_and!; reflexivity. Qed.

(** The examples of the specification's list of testable properties. *)
Example reply_output_field :
  (Runs.chat (Examples.respond 200 "OK" "{'output':'hello'}")).1 = Ok (VStr "hello").
Proof. vm_compute. reflexivity. Qed.

Example reply_plain_text :
  (Runs.chat (Examples.respond 200 "OK" "plain text")).1 = Ok (VStr "plain text").
Proof. vm_compute. reflexivity. Qed.

Example error_errorMessage_field :
  (Runs.chat (Examples.respond 500 "Internal Server Error"
                "{'errorMessage':'bad node config'}")).1
  = Throw (JsError "bad node config").
Proof. vm_compute. reflexivity. Qed.

Example error_not_json :
  (Runs.chat (Examples.respond 500 "Internal Server Error" "Internal Server Error")).1
  = Throw (JsError "Internal Server Error").
Proof. vm_compute. reflexivity. Qed.

Example session_id_of_the_day :
  FormData.getAll "sessionId" ∘ req_body
    <$> sent (Runs.chat (Examples.respond 200 "OK" "ok")).2
  = [[FormData.Text "session-Tue Nov 03 2026"]].
Proof. vm_compute. reflexivity. Qed.

(** *** The transport layer *)

(** C1 at a 500 response whose body names an [errorMessage]. *)
Lemma nonsuccess_error_message_witness :
  ∃ e,
    (Runs.chat (respond 500 "Internal Server Error" "{'errorMessage':'bad node config'}")).1
    = Throw e
    ∧ (Runs.upload (respond 500 "Internal Server Error" "{'errorMessage':'bad node config'}")).1
      = Throw e
    ∧ e = JsError "bad node config".
Proof.
  pose proof (nonsuccess_error_message hook "hi" [] [] None
                (world morning (respond 500 "Internal Server Error"
                                  "{'errorMessage':'bad node config'}"))
                (response 500 "Internal Server Error" "{'errorMessage':'bad node config'}"))
    as Hw.
  do 4 (lapply Hw; [clear Hw; intros Hw|vm_compute; reflexivity]).
  vm_compute in Hw. vm_compute. exact Hw.
Defined.

(** C1 as stated fails: a 500 response whose body is JSON without an
    [errorMessage] or [message] field.  The specification's words give the
    status text; the code throws the serialized body. *)
Lemma nonsuccess_without_field_serializes_body :
  (Runs.chat (respond 500 "Internal Server Error" "{'error':'boom'}")).1
  = Throw (JsError (jsonText "{'error':'boom'}"))
  ∧ (Runs.upload (respond 500 "Internal Server Error" "{'error':'boom'}")).1
    = Throw (JsError (jsonText "{'error':'boom'}"))
  ∧ specifiedErrorMessage (response 500 "Internal Server Error" "{'error':'boom'}")
    = "Internal Server Error"
  ∧ jsonText "{'error':'boom'}" ≠ "Internal Server Error".
Proof. split_and!; [vm_compute; reflexivity..|done]. Qed.

(** C1 at a field that has no string conversion: both functions throw the
    [TypeError] of [new Error(errorDesc)]. *)
Example nonsuccess_unconvertible_field_throws_type_error :
  (Runs.chat (respond 500 "Internal Server Error" "{'message':{'toString':1}}")).1
  = Throw (JsError "Cannot convert object to primitive value")
  ∧ (Runs.upload (respond 500 "Internal Server Error" "{'message':{'toString':1}}")).1
    = Throw (JsError "Cannot convert object to primitive value").
Proof. split; vm_compute; reflexivity. Qed.

(** C1 at a field that is a number: the message is its decimal numeral. *)
Example nonsuccess_number_field_is_converted :
  (Runs.chat (respond 500 "Internal Server Error" "{'errorMessage':404}")).1
  = Throw (JsError "404").
Proof. vm_compute. reflexivity. Qed.

(** C4 at a 200 response whose [output] is empty and whose [text] is not. *)
Lemma success_reply_witness :
  ∃ v,
    (Runs.chat (respond 200 "OK" "{'output':'','text':'hi'}")).1 = Ok v
    ∧ v = VStr "hi".
Proof.
  pose proof (success_reply hook "hi" [] []
                (world morning (respond 200 "OK" "{'output':'','text':'hi'}"))
                (response 200 "OK" "{'output':'','text':'hi'}")
                (jsonText "{'output':'','text':'hi'}")) as Hw.
  do 4 (lapply Hw; [clear Hw; intros Hw|vm_compute; reflexivity]).
  vm_compute in Hw. vm_compute. exact Hw.
Defined.

(** C4 as stated fails on the same response: the first candidate field
    that is present is [output], which holds the empty string, and the code
    returns the [text] field. *)
Lemma success_reply_skips_present_empty_field :
  (Runs.chat (respond 200 "OK" "{'output':'','text':'hi'}")).1 = Ok (VStr "hi")
  ∧ specifiedReply (jsonText "{'output':'','text':'hi'}") = VStr ""
  ∧ VStr (H := numbers) "hi" ≠ VStr "".
Proof. split_and!; [vm_compute; reflexivity..|done]. Qed.

(** C10 at the object [{"output":""}]. *)
Lemma falsy_candidate_is_absent_witness :
  replyFields (VObj [("output", VStr "")])
  = Ok (VStr (jsonText "{'output':''}"))
  ∧ errorFields (VObj [("output", VStr "")])
    = Ok (VStr (jsonText "{'output':''}"))
  ∧ (Runs.chat (respond 200 "OK" "{'output':''}")).1
    = Ok (VStr (jsonText "{'output':''}"))
  ∧ (Runs.chat (respond 500 "Internal Server Error" "{'errorMessage':'','message':0}")).1
    = Throw (JsError (jsonText "{'errorMessage':'','message':0}")).
Proof.
  pose proof (falsy_candidate_is_absent [("output", VStr "")] "output" (VStr "")) as Hw.
  do 2 (lapply Hw; [clear Hw; intros Hw|vm_compute; reflexivity]).
  vm_compute in Hw. vm_compute. exact Hw.
Defined.

(** C2 at the second of two files. *)
Lemma metadata_part_fields_witness :
  (binaryParts (chatFormData "session-Tue Nov 03 2026" "hi" [] [notes; photo]) !! 1
   = Some ("file_1", photo)
   ∧ FormData.getAll "file_metadata"
       (chatFormData "session-Tue Nov 03 2026" "hi" [] [notes; photo]) !! 1
     = Some (FormData.Text
               (jsonText "{'name':'photo.png','type':'image/png','size':2,'key':'file_1'}")))
  ∧ (binaryParts (uploadFormData "session-Tue Nov 03 2026" [notes; photo] None) !! 1
     = Some ("file_1", photo)
     ∧ FormData.getAll "file_metadata"
         (uploadFormData "session-Tue Nov 03 2026" [notes; photo] None) !! 1
       = Some (FormData.Text
                 (jsonText "{'name':'photo.png','type':'image/png','size':2,'key':'file_1'}"))).
Proof.
  pose proof (metadata_part_fields "session-Tue Nov 03 2026" "hi" [] None
                [notes; photo] 1 photo) as Hw.
  lapply Hw; [clear Hw; intros Hw|vm_compute; reflexivity].
  vm_compute in Hw. vm_compute. exact Hw.
Defined.

(** C2 as stated fails: the metadata part of a file is the text below, an
    object whose fields are [name], [type], [size] and [key]; it has no
    field [mimeType] and no field [sizeBytes]. *)
Lemma metadata_part_has_type_and_size :
  FormData.getAll "file_metadata" (chatFormData "session-Tue Nov 03 2026" "hi" [] [notes])
  = [FormData.Text
       (jsonText "{'name':'notes.txt','type':'text/plain','size':3,'key':'file_0'}")]
  ∧ FormData.getAll "file_metadata" (uploadFormData "ingestion-Tue Nov 03 2026" [notes] None)
    = [FormData.Text
         (jsonText "{'name':'notes.txt','type':'text/plain','size':3,'key':'file_0'}")]
  ∧ JSON_parse (jsonText "{'name':'notes.txt','type':'text/plain','size':3,'key':'file_0'}")
    = Ok (metadata notes 0)
  ∧ match metadata notes 0 with
    | VObj props => props.*1 = ["name"; "type"; "size"; "key"]
                    ∧ props.*1 ≠ ["name"; "mimeType"; "sizeBytes"; "key"]
    | _ => False
    end
  ∧ get (metadata notes 0) "mimeType" = Ok VUndefined
  ∧ get (metadata notes 0) "sizeBytes" = Ok VUndefined.
Proof. split_and!; try (vm_compute; reflexivity). done. Qed.

(** C5 at the empty URL and at a configured one. *)
Lemma unset_url_fails_else_one_post_witness :
  (sendChatMessage (VStr "") "hi" [] [notes] (world morning (respond 200 "OK" "ok"))
   = (Throw (JsError "Chat Webhook URL is not configured."),
      world morning (respond 200 "OK" "ok"))
   ∧ uploadFilesToWebhook (VStr "") [notes] None (world morning (respond 200 "OK" "ok"))
     = (Throw (JsError "Ingestion Webhook URL is not configured."),
        world morning (respond 200 "OK" "ok")))
  ∧ (∃ chat upload,
       sent (sendChatMessage hook "hi" [] [notes]
               (world morning (respond 200 "OK" "ok"))).2 = [] ++ [chat]
       ∧ sent (uploadFilesToWebhook hook [notes] None
                 (world morning (respond 200 "OK" "ok"))).2 = [] ++ [upload]
       ∧ chat = chatRequest hook "hi" [] [notes] (world morning (respond 200 "OK" "ok"))
       ∧ upload = uploadRequest hook [notes] None (world morning (respond 200 "OK" "ok"))
       ∧ req_method chat = "POST" ∧ req_url chat = hook
       ∧ req_method upload = "POST" ∧ req_url upload = hook).
Proof.
  split.
  - apply (unset_url_fails_else_one_post (VStr "") "hi" [] [notes] None
             (world morning (respond 200 "OK" "ok"))).
    vm_compute. reflexivity.
  - apply (unset_url_fails_else_one_post hook "hi" [] [notes] None
             (world morning (respond 200 "OK" "ok"))).
    vm_compute. reflexivity.
Defined.

(** C6 at two calls an hour apart on 3 November 2026, with different
    messages and files. *)
Lemma session_id_fixed_by_day_witness :
  ∃ chatId ingestionId : string,
    FormData.getAll "sessionId" ∘ req_body
      <$> last (sent (sendChatMessage hook "first" [] [notes]
                        (world morning (respond 200 "OK" "ok"))).2)
    = Some [FormData.Text chatId]
    ∧ FormData.getAll "sessionId" ∘ req_body
        <$> last (sent (sendChatMessage hook "second" [] [photo]
                          (world (morning + 3600000) (respond 200 "OK" "ok"))).2)
      = Some [FormData.Text chatId]
    ∧ FormData.getAll "sessionId" ∘ req_body
        <$> last (sent (uploadFilesToWebhook hook [notes] None
                          (world morning (respond 200 "OK" "ok"))).2)
      = Some [FormData.Text ingestionId]
    ∧ FormData.getAll "sessionId" ∘ req_body
        <$> last (sent (uploadFilesToWebhook hook [photo] (Some "context")
                          (world (morning + 3600000) (respond 200 "OK" "ok"))).2)
      = Some [FormData.Text ingestionId]
    ∧ chatId ≠ ingestionId.
Proof.
  apply (session_id_fixed_by_day
           hook "first" [] [notes] None (world morning (respond 200 "OK" "ok"))
           hook "second" [] [photo] (Some "context")
           (world (morning + 3600000) (respond 200 "OK" "ok")));
    vm_compute; reflexivity.
Defined.

(** *** The conversation *)

(** C7 at the first turn of a conversation, answered by a 500 response
    whose message names the unused respond node. *)
Lemma failed_turn_appends_error_message_witness :
  ∃ st' userMsg errorMsg,
    (handleSendMessage "hi" [notes] initialState
       (world morning (respond 500 "Internal Server Error"
                         "{'message':'Unused Respond to Webhook node found in the workflow'}"))).1
    = Ok st'
    ∧ messages st' = [userMsg; errorMsg]
    ∧ ChatMessage.role userMsg = USER
    ∧ ChatMessage.content userMsg = VStr "hi"
    ∧ ChatMessage.role errorMsg = ASSISTANT
    ∧ ChatMessage.isError errorMsg = Some true
    ∧ ChatMessage.content errorMsg
      = VStr ("Error: Unused Respond to Webhook node found in the workflow"
              +:+ nl +:+ nl +:+ adviceMark +:+ " "
              +:+ "N8N CONFIG ERROR: Open your N8N Webhook Node and change 'Respond' to 'Using Respond to Webhook Node'.").
Proof.
  destruct (failed_turn_appends_error_message initialState "hi" [notes]
              (world morning (respond 500 "Internal Server Error"
                 "{'message':'Unused Respond to Webhook node found in the workflow'}"))
              (JsError "Unused Respond to Webhook node found in the workflow")
              (sendChatMessage (WebhookConfig.chatUrl (config initialState)) "hi"
                 (messages initialState) [notes]
                 (tick (tick (world morning (respond 500 "Internal Server Error"
                    "{'message':'Unused Respond to Webhook node found in the workflow'}"))))).2)
    as (st' & userMsg & errorMsg & Hrun & Hmessages & Huser & Hrole & Hflag & Hcontent & _).
  { vm_compute. reflexivity. }
  exists st', userMsg, errorMsg.
  split_and!; [exact Hrun|exact Hmessages|by rewrite Huser..|exact Hrole|exact Hflag|].
  rewrite Hcontent. vm_compute. reflexivity.
Defined.

(** C7 as stated fails: after a 500 response whose [errorMessage] is
    [bad node config], that text is the error [sendChatMessage] throws, and
    the content of the appended message is not that text: it starts with
    [Error: ]. *)
Lemma failed_turn_content_has_prefix :
  (Runs.chat (respond 500 "Internal Server Error" "{'errorMessage':'bad node config'}")).1
  = Throw (JsError "bad node config")
  ∧ Runs.turn (respond 500 "Internal Server Error" "{'errorMessage':'bad node config'}")
    = [VStr "hi"; VStr "Error: bad node config"]
  ∧ VStr (H := numbers) "Error: bad node config" ≠ VStr "bad node config".
Proof. split_and!; [vm_compute; reflexivity..|done]. Qed.

(** *** The upload queue *)

(** C8 at a queue of three, asked to remove the pending picture. *)
Lemma remove_only_while_pending_witness :
  (is_Some (removeButton pictureItem)
   ↔ FileUploadItem.status pictureItem = FileUploadItem.pending)
  ∧ (FileUploadItem.status pictureItem ≠ FileUploadItem.pending →
     requestRemove pictureItem queue (worldWithStored "") = (queue, worldWithStored ""))
  ∧ (FileUploadItem.status pictureItem = FileUploadItem.pending →
     ∃ before after,
       queue = before ++ pictureItem :: after
       ∧ (requestRemove pictureItem queue (worldWithStored "")).1 = before ++ after
       ∧ ¬ pictureItem ∈ (requestRemove pictureItem queue (worldWithStored "")).1
       ∧ revoked (requestRemove pictureItem queue (worldWithStored "")).2
         = revoked (worldWithStored "")
           ++ (match FileUploadItem.previewUrl pictureItem with
               | Some url => if String.eqb url "" then [] else [url]
               | None => []
               end)).
Proof.
  apply (remove_only_while_pending queue pictureItem (worldWithStored "")).
  - unfold queue. apply list_elem_of_further, list_elem_of_here.
  - apply (bool_decide_unpack _). vm_compute. reflexivity.
Defined.

(** C8 as stated, for every queue, fails on a queue in which two items
    have the same identifier: the request to remove the pending picture
    also deletes the failed one, which is not pending, and the URL revoked
    is that of the failed one, the first the search finds, while the
    preview of the item removed on request is never released. *)
Lemma remove_with_shared_id_deletes_both :
  FileUploadItem.status failedPicture = FileUploadItem.error
  ∧ FileUploadItem.status pictureItem = FileUploadItem.pending
  ∧ FileUploadItem.id failedPicture = FileUploadItem.id pictureItem
  ∧ (requestRemove pictureItem [failedPicture; pictureItem; documentItem]
       (worldWithStored "")).1 = [documentItem]
  ∧ revoked (requestRemove pictureItem [failedPicture; pictureItem; documentItem]
               (worldWithStored "")).2 = ["blob:https://app.example/9c1e"]
  ∧ FileUploadItem.previewUrl pictureItem = Some "blob:https://app.example/4f2a"
  ∧ ¬ NoDup (FileUploadItem.id <$> [failedPicture; pictureItem; documentItem]).
Proof.
  split_and!; [vm_compute; reflexivity..|].
  intros Hnodup. apply NoDup_cons in Hnodup as [Hfresh _].
  apply Hfresh. left.
Qed.

Example remove_pending_picture :
  (requestRemove pictureItem queue (worldWithStored "")).1 = [failedItem; documentItem]
  ∧ revoked (requestRemove pictureItem queue (worldWithStored "")).2
    = ["blob:https://app.example/4f2a"].
Proof. split; reflexivity. Qed.

Example remove_failed_item_is_ignored :
  (requestRemove failedItem queue (worldWithStored "")).1 = queue
  ∧ revoked (requestRemove failedItem queue (worldWithStored "")).2 = [].
Proof. split; reflexivity. Qed.

(** *** The stored configuration *)

(** C9 at a stored document whose ingestion URL is empty. *)
Lemma load_config_falls_back_to_defaults_witness :
  ∃ c,
    SettingsModal_load
      (worldWithStored "{'ingestionUrl':'','chatUrl':'https://my.n8n/webhook/chat'}") = c
    ∧ (loadConfig initialState
         (worldWithStored "{'ingestionUrl':'','chatUrl':'https://my.n8n/webhook/chat'}")).1
      = Ok (setConfig c initialState)
    ∧ WebhookConfig.ingestionUrl c = WebhookConfig.ingestionUrl DEFAULT_CONFIG
    ∧ WebhookConfig.chatUrl c = VStr "https://my.n8n/webhook/chat".
Proof.
  destruct (load_config_falls_back_to_defaults
              (worldWithStored "{'ingestionUrl':'','chatUrl':'https://my.n8n/webhook/chat'}"))
    as (c & w' & Hload & Hmodal & _ & _ & Hdocument & Hempty & _).
  exists c. split_and!.
  - exact Hmodal.
  - by rewrite Hload.
  - apply (Hempty [("ingestionUrl", VStr ""); ("chatUrl", VStr "https://my.n8n/webhook/chat")]).
    + vm_compute. reflexivity.
    + right. reflexivity.
  - vm_compute in Hdocument. apply Hdocument.
Defined.

Example load_config_nothing_stored :
  SettingsModal_load (world morning (respond 200 "OK" "ok")) = DEFAULT_CONFIG
  ∧ (loadConfig initialState (world morning (respond 200 "OK" "ok"))).1 = Ok initialState.
Proof. split; vm_compute; reflexivity. Qed.

Example load_config_not_json :
  SettingsModal_load (worldWithStored "{'ingestionUrl':") = DEFAULT_CONFIG
  ∧ (loadConfig initialState (worldWithStored "{'ingestionUrl':")).1 = Ok initialState.
Proof. split; vm_compute; reflexivity. Qed.

Example load_config_empty_field :
  SettingsModal_load
    (worldWithStored "{'ingestionUrl':'','chatUrl':'https://my.n8n/webhook/chat'}")
  = {| WebhookConfig.ingestionUrl := WebhookConfig.ingestionUrl DEFAULT_CONFIG;
       WebhookConfig.chatUrl := VStr "https://my.n8n/webhook/chat" |}.
Proof. vm_compute. reflexivity. Qed.

End Concrete.

(** * Further properties of the code *)

(** ** The transport layer *)

Section TransportMore.
Context `{Host}.

Lemma getAll_around name (before after : FormData.t) files :
  (∀ i, fileKey i ≠ name) → name ≠ "file_metadata" →
  FormData.getAll name (before ++ fileParts 0 files ++ after)
  = FormData.getAll name before ++ FormData.getAll name after.
Proof.
  intros Hkey Hmeta. unfold FormData.getAll.
  rewrite !filter_app, !fmap_app.
  fold (FormData.getAll name (fileParts 0 files)).
  by rewrite getAll_other_fileParts.
Qed.

Lemma fileKey_not name :
  String.prefix "file_" name = false → ∀ i, fileKey i ≠ name.
Proof.
  intros Hname i Heq. rewrite <- Heq in Hname.
  assert (String.prefix "file_" (fileKey i) = true) as Htrue; [|congruence].
  apply prefix_spec. by exists (pretty i).
Qed.

(** X1.  In the body of either function the text travels twice, once as
    [message] and once as [chatInput], each name occurring exactly once and
    both with the same value: the message for a chat, the context (the
    empty string when there is none) for an upload. *)
Theorem text_field_is_sent_under_both_names sessionId message history textContext files :
  FormData.getAll "message" (chatFormData sessionId message history files)
  = [FormData.Text message]
  ∧ FormData.getAll "chatInput" (chatFormData sessionId message history files)
    = [FormData.Text message]
  ∧ FormData.getAll "message" (uploadFormData sessionId files textContext)
    = [FormData.Text (default "" textContext)]
  ∧ FormData.getAll "chatInput" (uploadFormData sessionId files textContext)
    = [FormData.Text (default "" textContext)].
Proof.
  rewrite chatFormData_parts, uploadFormData_parts.
  split_and!; by rewrite getAll_around by (by apply fileKey_not || done).
Qed.

(** X2.  With the URL set, a call that throws leaves exactly one new line
    on the console, the function's label with the very error it throws,
    and a call that returns leaves none. *)
Theorem failure_is_logged_once url message history files textContext w :
  ToBoolean url = true →
  match (sendChatMessage url message history files w).1 with
  | Ok _ => console (sendChatMessage url message history files w).2 = console w
  | Throw e =>
      console (sendChatMessage url message history files w).2
      = console w ++ [("Failed to send message to N8N:", e)]
  end
  ∧ match (uploadFilesToWebhook url files textContext w).1 with
    | Ok _ => console (uploadFilesToWebhook url files textContext w).2 = console w
    | Throw e =>
        console (uploadFilesToWebhook url files textContext w).2
        = console w ++ [("Failed to upload files to N8N:", e)]
    end.
Proof.
  intros Hurl. rewrite sendChatMessage_run, uploadFilesToWebhook_run by done.
  cbv zeta. split.
  - destruct (network w _) as [e|response]; [done|].
    destruct (ok response); [|done]. by destruct (body response).
  - destruct (network w _) as [e|response]; [done|].
    by destruct (ok response).
Qed.

(** X3.  An upload is taken as done on every status from 200 to 299: the
    body is not read, so even a body that cannot be read or is not JSON
    does not make it fail.  A chat answered by the same response does read
    the body, and throws the error of the failed read. *)
Theorem upload_ignores_success_body url message history files textContext w response :
  ToBoolean url = true →
  network w (sent w ++ [uploadRequest url files textContext w]) = Fulfilled response →
  network w (sent w ++ [chatRequest url message history files w]) = Fulfilled response →
  (200 ≤ status response ≤ 299)%nat →
  (uploadFilesToWebhook url files textContext w).1 = Ok tt
  ∧ ∀ e, body response = Throw e →
         (sendChatMessage url message history files w).1 = Throw e.
Proof.
  intros Hurl Hupload Hchat [Hlo Hhi].
  assert (ok response = true) as Hok.
  { unfold ok. apply andb_true_iff. split; by apply Nat.leb_le. }
  rewrite sendChatMessage_run, uploadFilesToWebhook_run by done. cbv zeta.
  rewrite Hupload, Hchat, Hok. split; [done|]. by intros e ->.
Qed.

(** X4.  When the request itself fails, both functions have sent it once
    and throw the error [fetch] rejected with, as it is. *)
Theorem rejection_is_rethrown url message history files textContext w e :
  ToBoolean url = true →
  network w (sent w ++ [chatRequest url message history files w]) = Rejected e →
  network w (sent w ++ [uploadRequest url files textContext w]) = Rejected e →
  (sendChatMessage url message history files w).1 = Throw e
  ∧ (uploadFilesToWebhook url files textContext w).1 = Throw e
  ∧ length (sent (sendChatMessage url message history files w).2) = S (length (sent w))
  ∧ length (sent (uploadFilesToWebhook url files textContext w).2) = S (length (sent w)).
Proof.
  intros Hurl Hchat Hupload.
  rewrite sendChatMessage_run, uploadFilesToWebhook_run by done. cbv zeta.
  rewrite Hchat, Hupload. cbn [fst snd sent logError post tick].
  rewrite !length_app. cbn [length]. split_and!; [done..|lia|lia].
Qed.

End TransportMore.

(** ** The conversation, turn by turn *)

Section ConversationMore.
Context `{Host}.
Local Open Scope io_scope.

(** What [handleSendMessage] does, with the call of [sendChatMessage] the
    one unknown. *)
Lemma handleSendMessage_run text attachments st w :
  handleSendMessage text attachments st w =
  let userMsg :=
    {| ChatMessage.id := pretty (now w);
       ChatMessage.role := USER;
       ChatMessage.content := VStr text;
       ChatMessage.timestamp := now (tick w);
       ChatMessage.isError := None;
       ChatMessage.attachments := Some (attachmentOf <$> attachments) |} in
  let appended replyMsg :=
    {| config := config st;
       messages := (messages st ++ [userMsg]) ++ [replyMsg];
       isChatLoading := false |} in
  match sendChatMessage (WebhookConfig.chatUrl (config st)) text (messages st)
          attachments (tick (tick w)) with
  | (Ok responseText, w1) =>
      (Ok (appended {| ChatMessage.id := pretty (now w1 + 1)%Z;
                       ChatMessage.role := ASSISTANT;
                       ChatMessage.content := responseText;
                       ChatMessage.timestamp := now (tick w1);
                       ChatMessage.isError := None;
                       ChatMessage.attachments := None |}),
       tick (tick w1))
  | (Throw e, w1) =>
      (Ok (appended {| ChatMessage.id := pretty (now (logError "Chat failed" e w1) + 1)%Z;
                       ChatMessage.role := ASSISTANT;
                       ChatMessage.content := VStr (chatDisplayMsg (errorMessageOf e));
                       ChatMessage.timestamp := now (tick (logError "Chat failed" e w1));
                       ChatMessage.isError := Some true;
                       ChatMessage.attachments := None |}),
       tick (tick (logError "Chat failed" e w1)))
  end.
Proof.
  unfold handleSendMessage.
  unfold bind at 1, Date_now at 1. unfold bind at 1, Date_now at 1.
  unfold bind at 1, try_catch. unfold bind at 1.
  destruct (sendChatMessage _ _ _ _ _) as [[responseText|e] w1]; reflexivity.
Qed.

(** The shape of a turn that the longer runs below build on. *)
Lemma handleSendMessage_shape st text attachments w :
  ∃ st' userMsg replyMsg,
    (handleSendMessage text attachments st w).1 = Ok st'
    ∧ messages st' = messages st ++ [userMsg; replyMsg]
    ∧ config st' = config st
    ∧ ChatMessage.role userMsg = USER
    ∧ ChatMessage.content userMsg = VStr text
    ∧ ChatMessage.attachments userMsg = Some (attachmentOf <$> attachments)
    ∧ ChatMessage.role replyMsg = ASSISTANT.
Proof.
  rewrite handleSendMessage_run. cbv zeta.
  destruct (sendChatMessage _ _ _ _ _) as [[responseText|e] w1]; cbn [fst];
    eexists _, _, _; (split_and!; [done|by rewrite <- app_assoc|done..]).
Qed.

(** X5.  Whatever the answer, a turn never throws and appends exactly two
    messages to the conversation it found, leaving the earlier ones and the
    configuration as they were and the loading flag off: the user's message
    with the text and the descriptions of the attached files, then one
    assistant message.  When [sendChatMessage] returned, that message holds
    the reply and carries no error flag; when it threw, the flag is set. *)
Theorem turn_appends_two_messages st text attachments w :
  ∃ st' userMsg replyMsg,
    (handleSendMessage text attachments st w).1 = Ok st'
    ∧ messages st' = messages st ++ [userMsg; replyMsg]
    ∧ config st' = config st
    ∧ isChatLoading st' = false
    ∧ ChatMessage.role userMsg = USER
    ∧ ChatMessage.content userMsg = VStr text
    ∧ ChatMessage.isError userMsg = None
    ∧ ChatMessage.attachments userMsg = Some (attachmentOf <$> attachments)
    ∧ ChatMessage.role replyMsg = ASSISTANT
    ∧ match (sendChatMessage (WebhookConfig.chatUrl (config st)) text (messages st)
               attachments (tick (tick w))).1 with
      | Ok responseText =>
          ChatMessage.content replyMsg = responseText
          ∧ ChatMessage.isError replyMsg = None
      | Throw _ => ChatMessage.isError replyMsg = Some true
      end.
Proof.
  rewrite handleSendMessage_run. cbv zeta.
  destruct (sendChatMessage _ _ _ _ _) as [[responseText|e] w1]; cbn [fst];
    eexists _, _, _; (split_and!; [done|by rewrite <- app_assoc|done..]).
Qed.

(** X6.  The request of a turn carries the conversation as it was before
    the turn: its [history] part is the serialized list of the roles and
    contents of the earlier messages, in order, without the message being
    sent, which travels as [message]; its binary parts are the attached
    files.  With no URL configured the turn sends nothing. *)
Theorem turn_sends_earlier_history st text attachments w :
  (ToBoolean (WebhookConfig.chatUrl (config st)) = true →
   ∃ req,
     sent (handleSendMessage text attachments st w).2 = sent w ++ [req]
     ∧ req_url req = WebhookConfig.chatUrl (config st)
     ∧ FormData.getAll "history" (req_body req)
       = [FormData.Text (JSON_stringify (VArr (historyEntry <$> messages st)))]
     ∧ FormData.getAll "message" (req_body req) = [FormData.Text text]
     ∧ (binaryParts (req_body req)).*2 = attachments)
  ∧ (ToBoolean (WebhookConfig.chatUrl (config st)) = false →
     sent (handleSendMessage text attachments st w).2 = sent w).
Proof.
  split; intros Hurl.
  - exists (chatRequest (WebhookConfig.chatUrl (config st)) text (messages st)
              attachments (tick (tick w))).
    assert (sent (handleSendMessage text attachments st w).2
            = sent (sendChatMessage (WebhookConfig.chatUrl (config st)) text
                      (messages st) attachments (tick (tick w))).2) as ->.
    { rewrite handleSendMessage_run. cbv zeta.
      by destruct (sendChatMessage _ _ _ _ _) as [[responseText|e] w1]. }
    rewrite sent_after_chat by done. cbn [req_body req_url chatRequest].
    rewrite chatFormData_parts. split_and!; [done|done| | |].
    + by rewrite getAll_around by (by apply fileKey_not || done).
    + by rewrite getAll_around by (by apply fileKey_not || done).
    + assert (carriesFiles attachments
                ([("message", FormData.Text text); ("chatInput", FormData.Text text);
                  ("sessionId",
                   FormData.Text ("session-" +:+ Date.toDateString (now (tick (tick w)))));
                  ("history",
                   FormData.Text (JSON_stringify (VArr (historyEntry <$> messages st))))]
                 ++ fileParts 0 attachments
                 ++ [("file_count", FormData.Text (pretty (length attachments)))]))
        as [Hfiles _] by by apply carriesFiles_around.
      exact Hfiles.
  - rewrite handleSendMessage_run. cbv zeta.
    rewrite sendChatMessage_unset by done. done.
Qed.

Lemma sendAll_cons text attachments rest st w :
  sendAll ((text, attachments) :: rest) st w =
  match handleSendMessage text attachments st w with
  | (Ok st', w') => sendAll rest st' w'
  | (Throw e, w') => (Throw e, w')
  end.
Proof. reflexivity. Qed.

(** X7.  A conversation only grows, by one user message and one assistant
    message per turn: after any sequence of turns the messages are those
    there were at the start followed by alternating user and assistant
    messages, the user messages holding the texts sent, in order; the
    configuration is untouched. *)
Theorem conversation_grows_by_pairs turns st w :
  ∃ st' added,
    (sendAll turns st w).1 = Ok st'
    ∧ messages st' = messages st ++ added
    ∧ ChatMessage.role <$> added = turns ≫= (λ _, [USER; ASSISTANT])
    ∧ ChatMessage.content
        <$> filter (λ m, ChatMessage.role m = USER) added
      = (λ turn, VStr turn.1) <$> turns
    ∧ length added = 2 * length turns
    ∧ config st' = config st.
Proof.
  revert st w. induction turns as [|[text attachments] rest IH]; intros st w.
  - exists st, []. cbn. by rewrite app_nil_r.
  - rewrite sendAll_cons.
    destruct (handleSendMessage_shape st text attachments w)
      as (st1 & userMsg & replyMsg & Hrun & Hmessages & Hconfig & Huser & Hcontent
          & _ & Hreply).
    destruct (handleSendMessage text attachments st w) as [r w1].
    cbn [fst] in Hrun. subst r.
    destruct (IH st1 w1) as (st' & added & Hrest & Hmore & Hroles & Htexts & Hlen & Hcfg).
    exists st', (userMsg :: replyMsg :: added).
    split_and!.
    + done.
    + rewrite Hmore, Hmessages. by rewrite <- app_assoc.
    + rewrite !fmap_cons, Huser, Hreply, Hroles. done.
    + rewrite filter_cons_True by done.
      rewrite filter_cons_False by (rewrite Hreply; done).
      by rewrite fmap_cons, Hcontent, Htexts.
    + cbn [length]. rewrite Hlen. lia.
    + by rewrite Hcfg.
Qed.

(** X8.  The advice is given exactly for the error texts in which
    [Unused Respond to Webhook node] occurs somewhere, and it is always the
    same sentence. *)
Theorem advice_iff_text_contains_marker errorMsg :
  (is_Some (getN8nErrorAdvice errorMsg)
   ↔ ∃ before after,
       errorMsg = before +:+ "Unused Respond to Webhook node" +:+ after)
  ∧ ∀ advice, getN8nErrorAdvice errorMsg = Some advice →
      advice = "N8N CONFIG ERROR: Open your N8N Webhook Node and change 'Respond' to 'Using Respond to Webhook Node'.".
Proof.
  unfold getN8nErrorAdvice. rewrite <- includes_spec.
  destruct (includes _ errorMsg); split.
  - split; [done|by eexists].
  - by intros advice [= <-].
  - split; [by intros [? ?]|done].
  - done.
Qed.

End ConversationMore.

(** ** Uploading *)

Section UploadMore.
Context `{Host}.
Variable trim : string → string.
Local Open Scope io_scope.


Lemma nothingToUpload_false (st : UploadTab.t) :
  UploadTab.files st ≠ [] ∨ trim (UploadTab.textContext st) ≠ "" →
  nothingToUpload trim st = false.
Proof.
  unfold nothingToUpload. intros [Hfiles|Htext].
  - destruct (UploadTab.files st); [done|]. done.
  - apply String.eqb_neq in Htext as ->. by rewrite andb_false_r.
Qed.


(** X9.  With no file in the queue and a context that trims to nothing,
    [handleUpload] does nothing at all.  With something to send but no
    ingestion URL, it opens the settings and does nothing else: no request,
    no change of any item, no status message. *)
Theorem upload_needs_content_and_url (st : UploadTab.t) w :
  (UploadTab.files st = [] → trim (UploadTab.textContext st) = "" →
   handleUpload trim st w = (Ok (st, None), w))
  ∧ (UploadTab.files st ≠ [] ∨ trim (UploadTab.textContext st) ≠ "" →
     ToBoolean (WebhookConfig.ingestionUrl (UploadTab.config st)) = false →
     handleUpload trim st w = (Ok (setIsSettingsOpen true st, None), w)).
Proof.
  split.
  - intros Hfiles Htext. unfold handleUpload, nothingToUpload.
    by rewrite Hfiles, Htext.
  - intros Hsome Hurl. unfold handleUpload.
    by rewrite (nothingToUpload_false _ Hsome), Hurl.
Qed.


End UploadMore.

(** ** Saving the configuration *)

Section SavingMore.
Context `{Host}.

Lemma firstTruthy_configValue c :
  firstTruthy ["ingestionUrl"] (configValue c)
  = (if ToBoolean (WebhookConfig.ingestionUrl c)
     then Some (WebhookConfig.ingestionUrl c) else None)
  ∧ firstTruthy ["chatUrl"] (configValue c)
    = (if ToBoolean (WebhookConfig.chatUrl c)
       then Some (WebhookConfig.chatUrl c) else None).
Proof. split; reflexivity. Qed.

(** X11.  Saving then loading gives the configuration back, on a host
    whose [JSON.parse] reads what its [JSON.stringify] wrote for it: each
    URL that was truthy when saved is loaded as it was, by the dialog and by
    [App] alike, and a URL saved empty comes back as the default one.  The
    save hands the configuration to [App] as it is, and touches no other
    key of the store. *)
Theorem saved_config_is_loaded_back c st w :
  JSON_parse (JSON_stringify (configValue c)) = Ok (configValue c) →
  JSON_stringify (configValue c) ≠ "" →
  let loaded :=
    {| WebhookConfig.ingestionUrl :=
         if ToBoolean (WebhookConfig.ingestionUrl c)
         then WebhookConfig.ingestionUrl c
         else WebhookConfig.ingestionUrl DEFAULT_CONFIG;
       WebhookConfig.chatUrl :=
         if ToBoolean (WebhookConfig.chatUrl c)
         then WebhookConfig.chatUrl c
         else WebhookConfig.chatUrl DEFAULT_CONFIG |} in
  SettingsModal_load (handleSave c st w).2 = loaded
  ∧ (∀ st0, (loadConfig st0 (handleSave c st w).2).1 = Ok (setConfig loaded st0))
  ∧ config (handleSave c st w).1 = c
  ∧ messages (handleSave c st w).1 = messages st
  ∧ ∀ key, key ≠ LOCAL_STORAGE_CONFIG_KEY →
           localStorage (handleSave c st w).2 !! key = localStorage w !! key.
Proof.
  intros Hparse Hnonempty loaded.
  assert (storedText LOCAL_STORAGE_CONFIG_KEY (handleSave c st w).2
          = Some (JSON_stringify (configValue c))) as Hstored.
  { unfold storedText, handleSave, setItem. cbn [snd localStorage].
    rewrite lookup_insert_eq. by apply String.eqb_neq in Hnonempty as ->. }
  assert ((let? parsed := JSON_parse (JSON_stringify (configValue c)) in
           configOfParsed parsed) = Ok loaded) as Hloaded.
  { rewrite Hparse. cbn [rbind]. rewrite configOfParsed_fields by done.
    destruct (firstTruthy_configValue c) as [-> ->]. unfold loaded.
    by destruct (ToBoolean (WebhookConfig.ingestionUrl c)),
                (ToBoolean (WebhookConfig.chatUrl c)). }
  split_and!.
  - unfold SettingsModal_load. by rewrite Hstored, Hloaded.
  - intros st0. unfold loadConfig. rewrite Hstored.
    unfold try_catch, bind, lift, ret. by rewrite Hloaded.
  - done.
  - done.
  - intros key Hkey. unfold handleSave, setItem. cbn [snd localStorage].
    by rewrite lookup_insert_ne.
Qed.

End SavingMore.

(** ** The queue and the composer *)

Section QueueMore.
Context `{Host}.

Lemma getFileType_image file :
  getFileType file = FileUploadItem.image
  ↔ startsWith "image/" (File.type file) = true.
Proof.
  unfold getFileType. destruct (startsWith "image/" (File.type file)); [done|].
  by destruct (startsWith "video/" (File.type file)),
              (startsWith "audio/" (File.type file)).
Qed.

Lemma getFileType_not_other file : getFileType file ≠ FileUploadItem.other.
Proof.
  unfold getFileType.
  by destruct (startsWith "image/" (File.type file)),
              (startsWith "video/" (File.type file)),
              (startsWith "audio/" (File.type file)).
Qed.

(** X12.  Adding files keeps the queue and puts the new items after it, one
    per file in selection order, each with the identifier drawn for it and
    the status [pending].  An item has a preview URL exactly when its kind
    is [image], which is exactly when the MIME type of the file starts with
    [image/]; no item is of kind [other].  Nothing is added when the
    browser hands over no file list, or by a drop made while an upload is
    being processed. *)
Theorem added_files_are_pending randomId createObjectURL incoming dropped
    (prev : list FileUploadItem.t) :
  handleFiles randomId createObjectURL None prev = prev
  ∧ handleDrop true randomId createObjectURL dropped prev = prev
  ∧ handleDrop false randomId createObjectURL dropped prev
    = handleFiles randomId createObjectURL (Some dropped) prev
  ∧ ∃ newFiles,
      handleFiles randomId createObjectURL (Some incoming) prev = prev ++ newFiles
      ∧ FileUploadItem.file <$> newFiles = incoming
      ∧ FileUploadItem.id <$> newFiles = randomId <$> seq 0 (length incoming)
      ∧ Forall (λ item,
                  FileUploadItem.status item = FileUploadItem.pending
                  ∧ FileUploadItem.type item ≠ FileUploadItem.other
                  ∧ (is_Some (FileUploadItem.previewUrl item)
                     ↔ FileUploadItem.type item = FileUploadItem.image)
                  ∧ (FileUploadItem.type item = FileUploadItem.image
                     ↔ startsWith "image/" (File.type (FileUploadItem.file item)) = true))
          newFiles.
Proof.
  split_and!; [done..|]. eexists. split; [reflexivity|]. split_and!.
  - rewrite fmap_imap. apply list_eq. intros i.
    rewrite list_lookup_imap. by destruct (incoming !! i).
  - rewrite fmap_imap. apply (imap_seq_0 incoming randomId).
  - apply Forall_lookup. intros i item [file [_ ->]]%list_lookup_imap_Some.
    cbn. split_and!; [done|apply getFileType_not_other| |apply getFileType_image].
    rewrite getFileType_image.
    destruct (startsWith "image/" (File.type file));
      split; (done || by intros [] || by eexists).
Qed.

(** X13.  A file just added can be taken back: when the identifier drawn
    for it is not that of an item already in the queue (whose identifiers
    are distinct), a request to remove the new item gives the queue as it
    was before the file was added, and revokes the URL made for its preview
    if it is an image, nothing otherwise. *)
Theorem added_file_can_be_removed randomId createObjectURL file
    (prev : list FileUploadItem.t) w :
  NoDup (FileUploadItem.id <$> prev) →
  randomId 0 ∉ FileUploadItem.id <$> prev →
  ∃ item,
    handleFiles randomId createObjectURL (Some [file]) prev = prev ++ [item]
    ∧ FileUploadItem.file item = file
    ∧ (requestRemove item (handleFiles randomId createObjectURL (Some [file]) prev) w).1
      = prev
    ∧ revoked (requestRemove item
                 (handleFiles randomId createObjectURL (Some [file]) prev) w).2
      = revoked w
        ++ (if startsWith "image/" (File.type file)
               && negb (String.eqb (createObjectURL 0) "")
            then [createObjectURL 0] else []).
Proof.
  intros Hnodup Hfresh.
  set (item := {| FileUploadItem.id := randomId 0;
                  FileUploadItem.file := file;
                  FileUploadItem.type := getFileType file;
                  FileUploadItem.previewUrl :=
                    if startsWith "image/" (File.type file)
                    then Some (createObjectURL 0) else None;
                  FileUploadItem.status := FileUploadItem.pending |}).
  exists item.
  assert (handleFiles randomId createObjectURL (Some [file]) prev = prev ++ [item]) as ->
    by reflexivity.
  split; [done|]. split; [done|].
  unfold requestRemove, removeButton.
  change (FileUploadItem.status item) with FileUploadItem.pending. cbv iota.
  rewrite (handleRemove_unique prev item [] w).
  - cbn [fst snd]. rewrite app_nil_r. split; [done|].
    change (FileUploadItem.previewUrl item)
      with (if startsWith "image/" (File.type file)
            then Some (createObjectURL 0) else None).
    destruct (startsWith "image/" (File.type file)); cbn [andb]; [|by rewrite app_nil_r].
    destruct (String.eqb (createObjectURL 0) ""); cbn [negb]; [by rewrite app_nil_r|done].
  - rewrite fmap_app. cbn [fmap list_fmap].
    apply NoDup_app. split_and!; [done| |apply NoDup_singleton].
    intros x Hx [->|[]%elem_of_nil]%elem_of_cons. done.
Qed.

Lemma filterNotIndex_delete {A} index from (l : list A) :
  filterNotIndex index from l
  = if decide (index < from) then l else delete (index - from) l.
Proof.
  revert from. induction l as [|x l IH]; intros from; cbn [filterNotIndex].
  - by case_decide.
  - rewrite IH. destruct (Nat.eqb_spec from index) as [->|Hne].
    + rewrite decide_True by lia. rewrite decide_False by lia.
      by rewrite Nat.sub_diag.
    + case_decide.
      * by rewrite decide_True by lia.
      * rewrite decide_False by lia.
        replace (index - from) with (S (index - S from)) by lia. done.
Qed.

(** X14.  Removing an attachment by its rank deletes the file of that rank
    and no other, the files after it moving up by one; a rank beyond the
    end changes nothing. *)
Theorem removeFile_deletes_that_rank {A} index (prev : list A) :
  removeFile index prev = take index prev ++ drop (S index) prev
  ∧ (index < length prev → length (removeFile index prev) = length prev - 1)
  ∧ ((length prev ≤ index)%nat → removeFile index prev = prev)
  ∧ (∀ i, i < index → removeFile index prev !! i = prev !! i)
  ∧ (∀ i, (index ≤ i)%nat → removeFile index prev !! i = prev !! S i).
Proof.
  unfold removeFile. rewrite filterNotIndex_delete, decide_False by lia.
  rewrite Nat.sub_0_r. split_and!.
  - apply delete_take_drop.
  - intros Hlt. apply length_delete. by apply lookup_lt_is_Some.
  - intros Hge. rewrite delete_take_drop, take_ge, drop_ge by lia.
    by rewrite app_nil_r.
  - intros i Hi. by apply list_lookup_delete_lt.
  - intros i Hi. by apply list_lookup_delete_ge.
Qed.

End QueueMore.

(** ** Submitting from the composer *)

Section SubmitMore.
Context `{Host}.
Variable trim : string → string.
Local Open Scope io_scope.

(** X15.  A submit made while a turn is outstanding, or with a text that
    trims to nothing and no attachment, changes neither the composer nor
    the conversation and sends nothing.  Any other submit empties the
    composer and starts one turn with the trimmed text and all the attached
    files, so the conversation gains the user message holding that text
    and one assistant message. *)
Theorem submit_starts_a_turn_or_nothing (c : Composer.t) st w :
  (isChatLoading st = true
   ∨ (trim (Composer.input c) = "" ∧ Composer.attachedFiles c = []) →
   submit trim c st w = (Ok (c, st), w))
  ∧ (isChatLoading st = false →
     trim (Composer.input c) ≠ "" ∨ Composer.attachedFiles c ≠ [] →
     ∃ st' userMsg replyMsg,
       (submit trim c st w).1
       = Ok ({| Composer.input := ""; Composer.attachedFiles := [] |}, st')
       ∧ (handleSendMessage (trim (Composer.input c)) (Composer.attachedFiles c) st w).1
         = Ok st'
       ∧ messages st' = messages st ++ [userMsg; replyMsg]
       ∧ ChatMessage.content userMsg = VStr (trim (Composer.input c))
       ∧ ChatMessage.attachments userMsg
         = Some (attachmentOf <$> Composer.attachedFiles c)).
Proof.
  split.
  - intros Hguard. unfold submit, handleSubmit.
    destruct Hguard as [-> | [-> ->]]; [by rewrite orb_true_r|done].
  - intros Hloading Hsome. unfold submit, handleSubmit. rewrite Hloading, orb_false_r.
    assert (String.eqb (trim (Composer.input c)) ""
            && (length (Composer.attachedFiles c) =? 0)%nat = false) as ->.
    { destruct Hsome as [Htext|Hfiles].
      - by apply String.eqb_neq in Htext as ->.
      - destruct (Composer.attachedFiles c); [done|]. apply andb_false_r. }
    destruct (handleSendMessage_shape st (trim (Composer.input c))
                (Composer.attachedFiles c) w)
      as (st' & userMsg & replyMsg & Hrun & Hmessages & _ & _ & Hcontent
          & Hattachments & _).
    exists st', userMsg, replyMsg. unfold bind, ret.
    destruct (handleSendMessage _ _ st w) as [r w1]. cbn [fst] in *. subst r.
    by split_and!.
Qed.

End SubmitMore.

(** ** More on bodies, replies and the cleared tab *)

Section LayoutMore.
Context `{Host}.

Lemma fileParts_lookup first files index file :
  files !! index = Some file →
  fileParts first files !! (2 * index)
  = Some (fileKey (first + index), FormData.Binary file)
  ∧ fileParts first files !! S (2 * index)
    = Some ("file_metadata",
            FormData.Text (JSON_stringify (metadata file (first + index)))).
Proof.
  revert first index. induction files as [|f rest IH]; intros first index Hfile; [done|].
  destruct index as [|index].
  - injection Hfile as ->. cbn. by rewrite Nat.add_0_r.
  - cbn in Hfile. destruct (IH (S first) index Hfile) as [Hbin Hmeta].
    replace (2 * S index) with (S (S (2 * index))) by lia.
    cbn [fileParts lookup list_lookup].
    replace (first + S index) with (S first + index) by lia. done.
Qed.

Lemma fileParts_length first files : length (fileParts first files) = 2 * length files.
Proof.
  revert first. induction files as [|f rest IH]; intros first; [done|].
  cbn [fileParts length]. rewrite IH. lia.
Qed.

Lemma lookup_between {A} (before parts after : list A) i x :
  parts !! i = Some x → (before ++ parts ++ after) !! (length before + i) = Some x.
Proof.
  intros Hx. rewrite lookup_app_r by lia.
  replace (length before + i - length before) with i by lia.
  by apply lookup_app_l_Some.
Qed.

(** X16.  In both bodies the parts come in a fixed order: the text fields
    (and the history, for a chat), then for each file its binary part
    immediately followed by its own metadata part, then the count.  So the
    file of rank [index] sits at position [4 + 2 index] of a chat body and
    [3 + 2 index] of an upload body, with its metadata right after, and the
    bodies have [5 + 2 N] and [4 + 2 N] parts. *)
Theorem file_part_is_followed_by_its_metadata
    sessionId message history textContext files index file :
  files !! index = Some file →
  chatFormData sessionId message history files !! (4 + 2 * index)
  = Some (fileKey index, FormData.Binary file)
  ∧ chatFormData sessionId message history files !! (5 + 2 * index)
    = Some ("file_metadata", FormData.Text (JSON_stringify (metadata file index)))
  ∧ uploadFormData sessionId files textContext !! (3 + 2 * index)
    = Some (fileKey index, FormData.Binary file)
  ∧ uploadFormData sessionId files textContext !! (4 + 2 * index)
    = Some ("file_metadata", FormData.Text (JSON_stringify (metadata file index)))
  ∧ length (chatFormData sessionId message history files) = 5 + 2 * length files
  ∧ length (uploadFormData sessionId files textContext) = 4 + 2 * length files
  ∧ last (chatFormData sessionId message history files)
    = Some ("file_count", FormData.Text (pretty (length files)))
  ∧ last (uploadFormData sessionId files textContext)
    = Some ("file_count", FormData.Text (pretty (length files))).
Proof.
  intros Hfile. rewrite chatFormData_parts, uploadFormData_parts.
  destruct (fileParts_lookup 0 files index file Hfile) as [Hbin Hmeta].
  split_and!.
  - by apply (lookup_between [_; _; _; _] _ _ (2 * index)).
  - by apply (lookup_between [_; _; _; _] _ _ (S (2 * index))).
  - by apply (lookup_between [_; _; _] _ _ (2 * index)).
  - by apply (lookup_between [_; _; _] _ _ (S (2 * index))).
  - rewrite !length_app, fileParts_length. cbn [length]. lia.
  - rewrite !length_app, fileParts_length. cbn [length]. lia.
  - by rewrite !app_assoc, last_snoc.
  - by rewrite !app_assoc, last_snoc.
Qed.

(** X17.  What [sendChatMessage] returns is never [undefined] or [null]: it
    is always a string or a truthy value. *)
Theorem reply_is_a_string_or_truthy url message history files w v :
  (sendChatMessage url message history files w).1 = Ok v →
  (is_string v = true ∨ ToBoolean v = true) ∧ v ≠ VUndefined ∧ v ≠ VNull.
Proof.
  intros Hrun.
  destruct (ToBoolean url) eqn:Hurl;
    [|by rewrite sendChatMessage_unset in Hrun by done].
  rewrite sendChatMessage_run in Hrun by done. cbv zeta in Hrun.
  destruct (network w _) as [e|response] eqn:Hnet; [done|].
  destruct (ok response); [|done].
  destruct (body response) as [responseText|e] eqn:Hbody; [|done].
  cbn [fst] in Hrun. injection Hrun as <-.
  assert (is_string (replyOf responseText) = true
          ∨ ToBoolean (replyOf responseText) = true) as Hkind.
  { unfold replyOf.
    destruct (JSON_parse responseText) as [data|?]; cbn [rbind]; [|by left].
    destruct (nullish data) eqn:Hnull.
    { destruct (replyFields_nullish _ Hnull) as [? ->]. by left. }
    rewrite (replyFields_firstTruthy _ Hnull).
    destruct (firstTruthy _ data) as [field|] eqn:Hfield;
      cbn [default from_option id].
    - apply firstTruthy_Some_truthy in Hfield. by right.
    - left. by destruct (is_string data) eqn:Hstring. }
  split_and!.
  - done.
  - intros Hv. rewrite Hv in Hkind. by destruct Hkind.
  - intros Hv. rewrite Hv in Hkind. by destruct Hkind.
Qed.

End LayoutMore.

Section ClearMore.
Context `{Host}.
Variable trim : string → string.

(** X18.  The clear that follows a successful upload empties the queue, the
    context and the status message and leaves the rest of the tab alone; on
    a host whose [trim] of the empty string is empty, a further upload from
    the cleared tab does nothing. *)
Theorem cleared_tab_has_nothing_to_upload (st : UploadTab.t) w :
  trim "" = "" →
  UploadTab.files (clearUpload st) = []
  ∧ UploadTab.textContext (clearUpload st) = ""
  ∧ UploadTab.uploadStatus (clearUpload st) = None
  ∧ UploadTab.config (clearUpload st) = UploadTab.config st
  ∧ UploadTab.isProcessingUpload (clearUpload st) = UploadTab.isProcessingUpload st
  ∧ handleUpload trim (clearUpload st) w = (Ok (clearUpload st, None), w).
Proof.
  intros Htrim. split_and!; [done..|].
  unfold handleUpload, nothingToUpload. cbn. by rewrite Htrim.
Qed.

End ClearMore.

(** ** The further properties on concrete runs *)

Section ConcreteMore.
Import SmallHost Examples Sessions.

(** X2 at a 500 answer. *)
Lemma failure_is_logged_once_witness :
  console (sendChatMessage hook "hi" [] [notes]
             (world morning (respond 500 "Internal Server Error"
                               "{'errorMessage':'bad node config'}"))).2
  = [("Failed to send message to N8N:", JsError "bad node config")]
  ∧ console (uploadFilesToWebhook hook [notes] None
               (world morning (respond 500 "Internal Server Error"
                                 "{'errorMessage':'bad node config'}"))).2
    = [("Failed to upload files to N8N:", JsError "bad node config")].
Proof.
  pose proof (failure_is_logged_once hook "hi" [] [notes] None
                (world morning (respond 500 "Internal Server Error"
                                  "{'errorMessage':'bad node config'}"))) as Hw.
  lapply Hw; [clear Hw; intros Hw|vm_compute; reflexivity].
  vm_compute in Hw. vm_compute. exact Hw.
Defined.

(** X3 at a 204 answer whose body cannot be read. *)
Lemma upload_ignores_success_body_witness :
  (uploadFilesToWebhook hook [notes] None (world morning (Fulfilled unreadable))).1 = Ok tt
  ∧ (sendChatMessage hook "hi" [] [notes] (world morning (Fulfilled unreadable))).1
    = Throw (JsError "body stream already read").
Proof.
  destruct (upload_ignores_success_body hook "hi" [] [notes] None
              (world morning (Fulfilled unreadable)) unreadable) as [Hupload Hchat].
  - vm_compute. reflexivity.
  - reflexivity.
  - reflexivity.
  - change (200 ≤ 204 ≤ 299)%nat. lia.
  - split; [exact Hupload|]. apply Hchat. reflexivity.
Defined.

(** X4 at a network that is down. *)
Lemma rejection_is_rethrown_witness :
  (sendChatMessage hook "hi" [] [notes]
     (world morning (Rejected (JsError "Failed to fetch")))).1
  = Throw (JsError "Failed to fetch")
  ∧ (uploadFilesToWebhook hook [notes] None
       (world morning (Rejected (JsError "Failed to fetch")))).1
    = Throw (JsError "Failed to fetch")
  ∧ length (sent (sendChatMessage hook "hi" [] [notes]
                    (world morning (Rejected (JsError "Failed to fetch")))).2) = 1
  ∧ length (sent (uploadFilesToWebhook hook [notes] None
                    (world morning (Rejected (JsError "Failed to fetch")))).2) = 1.
Proof.
  apply (rejection_is_rethrown hook "hi" [] [notes] None
           (world morning (Rejected (JsError "Failed to fetch")))
           (JsError "Failed to fetch")).
  - vm_compute. reflexivity.
  - reflexivity.
  - reflexivity.
Defined.

(** X6 at the second turn of a conversation. *)
Lemma turn_sends_earlier_history_witness :
  ∃ req,
    sent (handleSendMessage "and you?" [photo] talking
            (world morning (respond 200 "OK" "{'output':'fine'}"))).2 = [req]
    ∧ req_url req = hook
    ∧ FormData.getAll "history" (req_body req)
      = [FormData.Text
           (jsonText "[{'role':'user','content':'hello'},{'role':'assistant','content':'hi there'}]")]
    ∧ FormData.getAll "message" (req_body req) = [FormData.Text "and you?"]
    ∧ (binaryParts (req_body req)).*2 = [photo].
Proof.
  destruct (turn_sends_earlier_history talking "and you?" [photo]
              (world morning (respond 200 "OK" "{'output':'fine'}"))) as [Hset _].
  lapply Hset; [clear Hset; intros Hset|vm_compute; reflexivity].
  destruct Hset as (req & Hsent & Hurl & Hhistory & Hmessage & Hfiles).
  exists req. split_and!; [exact Hsent|exact Hurl| |exact Hmessage|exact Hfiles].
  rewrite Hhistory. vm_compute. reflexivity.
Defined.

(** X9 at an empty tab whose context is blank, and at a tab with a queue
    but no URL. *)
Lemma upload_needs_content_and_url_witness :
  handleUpload SpaceTrim.trim (tab ingest [] "   ")
    (world morning (respond 200 "OK" "ok"))
  = (Ok (tab ingest [] "   ", None), world morning (respond 200 "OK" "ok"))
  ∧ handleUpload SpaceTrim.trim (tab (VStr "") queue "")
      (world morning (respond 200 "OK" "ok"))
    = (Ok (setIsSettingsOpen true (tab (VStr "") queue ""), None),
       world morning (respond 200 "OK" "ok")).
Proof.
  split.
  - apply (upload_needs_content_and_url SpaceTrim.trim (tab ingest [] "   ")
             (world morning (respond 200 "OK" "ok"))); vm_compute; reflexivity.
  - apply (upload_needs_content_and_url SpaceTrim.trim (tab (VStr "") queue "")
             (world morning (respond 200 "OK" "ok"))).
    + left. discriminate.
    + vm_compute. reflexivity.
Defined.


(** X11 at a configuration saved with an empty chat URL. *)
Lemma saved_config_is_loaded_back_witness :
  SettingsModal_load
    (handleSave {| WebhookConfig.ingestionUrl := ingest; WebhookConfig.chatUrl := VStr "" |}
       initialState (world morning (respond 200 "OK" "ok"))).2
  = {| WebhookConfig.ingestionUrl := ingest;
       WebhookConfig.chatUrl := WebhookConfig.chatUrl DEFAULT_CONFIG |}
  ∧ (loadConfig initialState
       (handleSave {| WebhookConfig.ingestionUrl := ingest; WebhookConfig.chatUrl := VStr "" |}
          initialState (world morning (respond 200 "OK" "ok"))).2).1
    = Ok (setConfig {| WebhookConfig.ingestionUrl := ingest;
                       WebhookConfig.chatUrl := WebhookConfig.chatUrl DEFAULT_CONFIG |}
            initialState).
Proof.
  destruct (saved_config_is_loaded_back
              {| WebhookConfig.ingestionUrl := ingest; WebhookConfig.chatUrl := VStr "" |}
              initialState (world morning (respond 200 "OK" "ok")))
    as (Hdialog & Happ & _).
  - vm_compute. reflexivity.
  - vm_compute. discriminate.
  - split; [exact Hdialog|exact (Happ initialState)].
Defined.

(** X13 at a picture added to a queue of three. *)
Lemma added_file_can_be_removed_witness :
  ∃ item,
    handleFiles drawn blob (Some [photo]) queue = queue ++ [item]
    ∧ FileUploadItem.file item = photo
    ∧ (requestRemove item (handleFiles drawn blob (Some [photo]) queue)
         (world morning (respond 200 "OK" "ok"))).1 = queue
    ∧ revoked (requestRemove item (handleFiles drawn blob (Some [photo]) queue)
                 (world morning (respond 200 "OK" "ok"))).2
      = ["blob:https://app.example/0"].
Proof.
  destruct (added_file_can_be_removed drawn blob photo queue
              (world morning (respond 200 "OK" "ok")))
    as (item & Hadded & Hfile & Hqueue & Hrevoked).
  - apply (bool_decide_unpack _). vm_compute. reflexivity.
  - apply (bool_decide_unpack _). vm_compute. reflexivity.
  - exists item. split_and!; [exact Hadded|exact Hfile|exact Hqueue|].
    rewrite Hrevoked. vm_compute. reflexivity.
Defined.

(** X15 at a blank composer, and at one holding a padded text and a file. *)
Lemma submit_starts_a_turn_or_nothing_witness :
  submit SpaceTrim.trim {| Composer.input := "   "; Composer.attachedFiles := [] |}
    talking (world morning (respond 200 "OK" "{'output':'fine'}"))
  = (Ok ({| Composer.input := "   "; Composer.attachedFiles := [] |}, talking),
     world morning (respond 200 "OK" "{'output':'fine'}"))
  ∧ ∃ st' userMsg replyMsg,
      (submit SpaceTrim.trim {| Composer.input := "  and you? "; Composer.attachedFiles := [notes] |}
         talking (world morning (respond 200 "OK" "{'output':'fine'}"))).1
      = Ok ({| Composer.input := ""; Composer.attachedFiles := [] |}, st')
      ∧ messages st' = [asked; answered; userMsg; replyMsg]
      ∧ ChatMessage.content userMsg = VStr "and you?".
Proof.
  split.
  - apply (submit_starts_a_turn_or_nothing SpaceTrim.trim
             {| Composer.input := "   "; Composer.attachedFiles := [] |}
             talking (world morning (respond 200 "OK" "{'output':'fine'}"))).
    right. split; vm_compute; reflexivity.
  - destruct (submit_starts_a_turn_or_nothing SpaceTrim.trim
                {| Composer.input := "  and you? "; Composer.attachedFiles := [notes] |}
                talking (world morning (respond 200 "OK" "{'output':'fine'}")))
      as [_ Hturn].
    destruct Hturn as (st' & userMsg & replyMsg & Hrun & _ & Hmessages & Hcontent & _).
    + reflexivity.
    + right. discriminate.
    + exists st', userMsg, replyMsg. split_and!; [exact Hrun|exact Hmessages|].
      rewrite Hcontent. vm_compute. reflexivity.
Defined.

(** X16 at the second of two files. *)
Lemma file_part_is_followed_by_its_metadata_witness :
  chatFormData "session-Tue Nov 03 2026" "hi" [] [notes; photo] !! 6
  = Some ("file_1", FormData.Binary photo)
  ∧ chatFormData "session-Tue Nov 03 2026" "hi" [] [notes; photo] !! 7
    = Some ("file_metadata",
            FormData.Text
              (jsonText "{'name':'photo.png','type':'image/png','size':2,'key':'file_1'}"))
  ∧ length (chatFormData "session-Tue Nov 03 2026" "hi" [] [notes; photo]) = 9
  ∧ length (uploadFormData "session-Tue Nov 03 2026" [notes; photo] None) = 8.
Proof.
  destruct (file_part_is_followed_by_its_metadata "session-Tue Nov 03 2026" "hi" [] None
              [notes; photo] 1 photo) as (Hbin & Hmeta & _ & _ & Hchat & Hupload & _).
  - reflexivity.
  - split_and!; [exact Hbin| |exact Hchat|exact Hupload].
    refine (eq_trans Hmeta _). vm_compute. reflexivity.
Defined.

(** X17 at a reply read from the [output] field. *)
Lemma reply_is_a_string_or_truthy_witness :
  (is_string (VStr (H := numbers) "fine") = true ∨ ToBoolean (VStr "fine") = true)
  ∧ VStr (H := numbers) "fine" ≠ VUndefined
  ∧ VStr (H := numbers) "fine" ≠ VNull.
Proof.
  apply (reply_is_a_string_or_truthy hook "hi" [] []
           (world morning (respond 200 "OK" "{'output':'fine'}")) (VStr "fine")).
  vm_compute. reflexivity.
Defined.

(** X18 at a tab whose upload has just succeeded. *)
Lemma cleared_tab_has_nothing_to_upload_witness :
  UploadTab.files (clearUpload (tab ingest queue "about these")) = []
  ∧ UploadTab.textContext (clearUpload (tab ingest queue "about these")) = ""
  ∧ UploadTab.uploadStatus (clearUpload (tab ingest queue "about these")) = None
  ∧ UploadTab.config (clearUpload (tab ingest queue "about these"))
    = UploadTab.config (tab ingest queue "about these")
  ∧ UploadTab.isProcessingUpload (clearUpload (tab ingest queue "about these"))
    = UploadTab.isProcessingUpload (tab ingest queue "about these")
  ∧ handleUpload SpaceTrim.trim (clearUpload (tab ingest queue "about these"))
      (world morning (respond 200 "OK" "ok"))
    = (Ok (clearUpload (tab ingest queue "about these"), None),
       world morning (respond 200 "OK" "ok")).
Proof.
  apply (cleared_tab_has_nothing_to_upload SpaceTrim.trim (tab ingest queue "about these")
           (world morning (respond 200 "OK" "ok"))).
  reflexivity.
Defined.

End ConcreteMore.
